(** * Blockchain_Project: transactions and blocks

    A shallow embedding of [proj_transaction.py] and [proj_block.py].

    Python values are modelled as follows.
    - [str] is [pystr], a list of code points; a text the code makes out of
      ASCII characters alone (JSON text, hexadecimal text, a digest, the
      name of a key) is kept as a [string].
    - [bytes] is [list byte].
    - an instance attribute is a [slot]: it may never have been assigned
      (reading it raises [AttributeError]), hold [None], or hold a [str].
    - a method that mutates [self] is a function from the object to an
      outcome and the object afterwards.
    - [hashlib.sha256] is SHA-256 as defined by FIPS 180-4, on 32-bit words
      kept in [Z] with the wrap-around written out.
    - the [ecdsa] package is an interface ([SignatureScheme]); the methods
      are stated over any implementation of it. *)

From Stdlib Require Import ZArith List String Ascii Bool Lia.
From Stdlib.Strings Require Import Byte.
From Stdlib Require Import Permutation Sorted DecimalString DecimalPos DecimalZ.
From Stdlib Require OrderedTypeEx.
Import ListNotations.

Local Open Scope string_scope.
Local Open Scope Z_scope.

(** ** Exceptions and outcomes *)

Inductive exn : Type :=
| AttributeError          (* reading an attribute that was never assigned *)
| TypeError               (* e.g. [bytes.fromhex(None)], unserialisable value *)
| ValueError              (* e.g. [bytes.fromhex] on a non-hexadecimal string *)
| MalformedKeyError       (* what [VerifyingKey.from_pem] raises on bad input *)
| BadSignatureError       (* [ecdsa.BadSignatureError] *)
| UnicodeEncodeError      (* [str.encode()] on a surrogate code point *)
| SyntaxError             (* a line that is no statement of the language *)
| IncompleteTransaction   (* [proj_transaction.IncompleteTransaction] *)
| InvalidBlock.           (* [proj_block.InvalidBlock] *)

Inductive result (A : Type) : Type :=
| Ok (a : A)
| Raise (e : exn).
Arguments Ok {A} a.
Arguments Raise {A} e.

Definition rbind {A B} (r : result A) (k : A -> result B) : result B :=
  match r with
  | Ok a => k a
  | Raise e => Raise e
  end.

Notation "x <- c ;; k" := (rbind c (fun x => k))
  (at level 61, c at next level, right associativity).

(** ** Hexadecimal text: [bytes.hex] and [bytes.fromhex] *)

Module Hex.

Definition digit (n : N) : ascii :=
  match n with
  | 0 => "0" | 1 => "1" | 2 => "2" | 3 => "3" | 4 => "4" | 5 => "5"
  | 6 => "6" | 7 => "7" | 8 => "8" | 9 => "9" | 10 => "a" | 11 => "b"
  | 12 => "c" | 13 => "d" | 14 => "e" | _ => "f"
  end%N%char.

(** Value of a hexadecimal digit, either case, as [int(c, 16)] reads it. *)
Definition value (c : ascii) : option N :=
  let n := N_of_ascii c in
  if ((48 <=? n) && (n <=? 57))%N then Some (n - 48)%N
  else if ((97 <=? n) && (n <=? 102))%N then Some (n - 87)%N
  else if ((65 <=? n) && (n <=? 70))%N then Some (n - 55)%N
  else None.

(** [b.hex()]: two lower-case digits for each byte. *)
Fixpoint hex (bs : list byte) : string :=
  match bs with
  | [] => EmptyString
  | b :: bs' =>
      let n := Byte.to_N b in
      String (digit (n / 16)) (String (digit (n mod 16)) (hex bs'))
  end.

(** ASCII white space, skipped by [bytes.fromhex] between bytes. *)
Definition is_space (c : ascii) : bool :=
  let n := N_of_ascii c in
  ((n =? 32) || ((9 <=? n) && (n <=? 13)))%N.

Definition byte_of_nibbles (h l : N) : option byte := Byte.of_N (16 * h + l).

(** [bytes.fromhex(s)]; [None] stands for the [ValueError] it raises. *)
Fixpoint fromhex (s : string) : option (list byte) :=
  match s with
  | EmptyString => Some []
  | String c s' =>
      if is_space c then fromhex s'
      else
        match s' with
        | EmptyString => None
        | String d s'' =>
            match value c, value d with
            | Some h, Some l =>
                match byte_of_nibbles h l, fromhex s'' with
                | Some b, Some bs => Some (b :: bs)
                | _, _ => None
                end
            | _, _ => None
            end
        end
  end.

End Hex.

(** ** [str.encode()] on a text: UTF-8 of code points 0..255 *)

Definition byte_of_N (n : N) : byte :=
  match Byte.of_N n with
  | Some b => b
  | None => x00
  end.

Definition encode_char (c : ascii) : list byte :=
  let n := N_of_ascii c in
  if (n <? 128)%N then [byte_of_ascii c]
  else [byte_of_N (192 + n / 64); byte_of_N (128 + n mod 64)].

Fixpoint encode (s : string) : list byte :=
  match s with
  | EmptyString => []
  | String c s' => (encode_char c ++ encode s')%list
  end.

(** ** SHA-256 (FIPS 180-4) and [hexdigest] *)

Module SHA256.

Definition modulus : Z := 2 ^ 32.
Definition wrap (x : Z) : Z := x mod modulus.
Definition add (x y : Z) : Z := wrap (x + y).
Definition rotr (n x : Z) : Z :=
  Z.lor (Z.shiftr x n) (wrap (Z.shiftl x (32 - n))).
Definition shr (n x : Z) : Z := Z.shiftr x n.
Definition not32 (x : Z) : Z := Z.lxor x (modulus - 1).

Definition Ch (x y z : Z) : Z := Z.lxor (Z.land x y) (Z.land (not32 x) z).
Definition Maj (x y z : Z) : Z :=
  Z.lxor (Z.lxor (Z.land x y) (Z.land x z)) (Z.land y z).
Definition Sigma0 (x : Z) : Z :=
  Z.lxor (Z.lxor (rotr 2 x) (rotr 13 x)) (rotr 22 x).
Definition Sigma1 (x : Z) : Z :=
  Z.lxor (Z.lxor (rotr 6 x) (rotr 11 x)) (rotr 25 x).
Definition sigma0 (x : Z) : Z :=
  Z.lxor (Z.lxor (rotr 7 x) (rotr 18 x)) (shr 3 x).
Definition sigma1 (x : Z) : Z :=
  Z.lxor (Z.lxor (rotr 17 x) (rotr 19 x)) (shr 10 x).

(** The constants of FIPS 180-4 are fractional parts of roots of the first
    primes, on 32 bits. *)
Definition is_prime (n : nat) : bool :=
  forallb (fun d => negb (Nat.eqb (Nat.modulo n d) 0)) (seq 2 (n - 2)).

Definition primes (count : nat) : list Z :=
  map Z.of_nat (firstn count (filter is_prime (seq 2 310))).

(** The largest [r] below [2 ^ bits] with [r * r * r <= x], bit by bit. *)
Fixpoint cube_root (bits : nat) (x r : Z) : Z :=
  match bits with
  | O => r
  | S b =>
      let c := r + 2 ^ Z.of_nat b in
      cube_root b x (if c * c * c <=? x then c else r)
  end.

(** Fractional part of the cube root of each of the first 64 primes. *)
Definition K : list Z :=
  Eval vm_compute in
    map (fun p => wrap (cube_root 40 (p * 2 ^ 96) 0)) (primes 64).

(** Fractional part of the square root of each of the first 8 primes. *)
Definition H0 : list Z :=
  Eval vm_compute in map (fun p => wrap (Z.sqrt (p * 2 ^ 64))) (primes 8).

(** The eight working words. *)
Record state : Type := mkState {
  ha : Z; hb : Z; hc : Z; hd : Z; he : Z; hf : Z; hg : Z; hh : Z
}.

Definition initial : state :=
  let h := fun i => nth i H0 0 in
  mkState (h 0%nat) (h 1%nat) (h 2%nat) (h 3%nat)
          (h 4%nat) (h 5%nat) (h 6%nat) (h 7%nat).

(** Padding: a 1 bit, zeros up to 56 modulo 64 bytes, the bit length on
    eight bytes, most significant first. *)
Definition be_bytes (width : nat) (x : Z) : list Z :=
  map (fun i => Z.shiftr x (8 * Z.of_nat (width - 1 - i)) mod 256)
      (seq 0 width).

Definition pad (msg : list Z) : list Z :=
  let len := Z.of_nat (List.length msg) in
  let zeros := Z.to_nat ((55 - len) mod 64) in
  (msg ++ [128] ++ repeat 0 zeros ++ be_bytes 8 (8 * len))%list.

Fixpoint words (bs : list Z) : list Z :=
  match bs with
  | a :: b :: c :: d :: rest =>
      Z.lor (Z.lor (Z.lor (Z.shiftl a 24) (Z.shiftl b 16)) (Z.shiftl c 8)) d
      :: words rest
  | _ => []
  end.

Fixpoint chunks (fuel : nat) (ws : list Z) : list (list Z) :=
  match fuel, ws with
  | O, _ | _, [] => []
  | S fuel', _ => firstn 16 ws :: chunks fuel' (skipn 16 ws)
  end.

(** Message schedule: [w] holds W(0..t-1); [extend n w] appends n words. *)
Definition W_at (w : list Z) (back : nat) : Z :=
  nth (List.length w - back) w 0.

Fixpoint extend (n : nat) (w : list Z) : list Z :=
  match n with
  | O => w
  | S n' =>
      let x := add (add (sigma1 (W_at w 2)) (W_at w 7))
                   (add (sigma0 (W_at w 15)) (W_at w 16)) in
      extend n' (w ++ [x])%list
  end.

Definition schedule (block : list Z) : list Z := extend 48 block.

Definition round (s : state) (kw : Z * Z) : state :=
  let (k, w) := kw in
  let t1 := add (add (add (add (hh s) (Sigma1 (he s)))
                          (Ch (he s) (hf s) (hg s))) k) w in
  let t2 := add (Sigma0 (ha s)) (Maj (ha s) (hb s) (hc s)) in
  mkState (add t1 t2) (ha s) (hb s) (hc s) (add (hd s) t1) (he s) (hf s) (hg s).

Definition compress (s : state) (block : list Z) : state :=
  let r := fold_left round (combine K (schedule block)) s in
  mkState (add (ha s) (ha r)) (add (hb s) (hb r)) (add (hc s) (hc r))
          (add (hd s) (hd r)) (add (he s) (he r)) (add (hf s) (hf r))
          (add (hg s) (hg r)) (add (hh s) (hh r)).

Definition digest (msg : list byte) : state :=
  let ws := words (pad (map (fun b => Z.of_N (Byte.to_N b)) msg)) in
  fold_left compress (chunks (List.length ws) ws) initial.

Definition nibble (x : Z) (i : Z) : ascii :=
  Hex.digit (Z.to_N (Z.shiftr x (4 * i) mod 16)).

Definition hex_word (x : Z) : string :=
  String (nibble x 7) (String (nibble x 6) (String (nibble x 5)
  (String (nibble x 4) (String (nibble x 3) (String (nibble x 2)
  (String (nibble x 1) (String (nibble x 0) EmptyString))))))).

(** [hashlib.sha256(msg).hexdigest()] *)
Definition hexdigest (msg : list byte) : string :=
  let s := digest msg in
  hex_word (ha s) ++ hex_word (hb s) ++ hex_word (hc s) ++ hex_word (hd s) ++
  hex_word (he s) ++ hex_word (hf s) ++ hex_word (hg s) ++ hex_word (hh s).

End SHA256.

(** ** [str]: a sequence of code points *)

Definition pystr : Type := list N.

Module Unicode.

Local Open Scope N_scope.

(** A text, as a [str]. *)
Definition lit (s : string) : pystr :=
  map N_of_ascii (list_ascii_of_string s).

(** The text a [str] is, when all its code points are below 256. *)
Fixpoint to_text (s : pystr) : option string :=
  match s with
  | [] => Some EmptyString
  | c :: s' =>
      if c <? 256 then
        match to_text s' with
        | Some t => Some (String (ascii_of_N c) t)
        | None => None
        end
      else None
  end.

(** The code points U+D800..U+DFFF. *)
Definition is_surrogate (c : N) : bool := (55296 <=? c) && (c <=? 57343).

(** A Unicode scalar value: a code point that is no surrogate. *)
Definition is_scalar (c : N) : bool := (c <? 1114112) && negb (is_surrogate c).

Definition scalars (s : pystr) : bool := forallb is_scalar s.

Definition no_surrogate (s : pystr) : bool :=
  forallb (fun c => negb (is_surrogate c)) s.

(** UTF-8 of one code point; there is none for a surrogate. *)
Definition encode_char (c : N) : option (list byte) :=
  if c <? 128 then Some [byte_of_N c]
  else if c <? 2048 then
    Some [byte_of_N (192 + c / 64); byte_of_N (128 + c mod 64)]
  else if is_surrogate c then None
  else if c <? 65536 then
    Some [byte_of_N (224 + c / 4096); byte_of_N (128 + (c / 64) mod 64);
          byte_of_N (128 + c mod 64)]
  else
    Some [byte_of_N (240 + c / 262144); byte_of_N (128 + (c / 4096) mod 64);
          byte_of_N (128 + (c / 64) mod 64); byte_of_N (128 + c mod 64)].

(** [s.encode()]: raises [UnicodeEncodeError] at the first surrogate. *)
Fixpoint encode (s : pystr) : result (list byte) :=
  match s with
  | [] => Ok []
  | c :: s' =>
      match encode_char c with
      | None => Raise UnicodeEncodeError
      | Some bs => rest <- encode s' ;; Ok (bs ++ rest)%list
      end
  end.

(** [a == b] *)
Fixpoint eqb (a b : pystr) : bool :=
  match a, b with
  | [], [] => true
  | x :: a', y :: b' => (x =? y) && eqb a' b'
  | _, _ => false
  end.

(** [a < b]: code point by code point. *)
Fixpoint ltb (a b : pystr) : bool :=
  match a, b with
  | _, [] => false
  | [], _ :: _ => true
  | x :: a', y :: b' =>
      if x <? y then true else if x =? y then ltb a' b' else false
  end.

End Unicode.

(** ** [json.dumps(d, sort_keys=True)] *)

Module Json.

Definition dquote : ascii := "034"%char.
Definition backslash : ascii := "092"%char.

(** The Python values that reach [json.dumps] here.  [Opaque] is any object
    the encoder has no rule for (a [Transaction], a bound method): encoding
    it raises [TypeError]. *)
#[warnings="-register-all"]
Inductive value : Type :=
| Null
| Int (z : Z)
| Str (s : pystr)
| Arr (items : list value)
| Opaque.

(** A [dict] in insertion order; its keys are names written in ASCII. *)
Definition dict : Type := list (string * value).

(** [format(u, '04x')] of a UTF-16 code unit, after a backslash and [u]. *)
Definition escape_unit (u : N) : string :=
  String backslash
    (String "u"
      (String (Hex.digit ((u / 4096) mod 16))
        (String (Hex.digit ((u / 256) mod 16))
          (String (Hex.digit ((u / 16) mod 16))
            (String (Hex.digit (u mod 16)) EmptyString))))).

(** [ensure_ascii] escaping of one code point: the short escapes, the
    printable ASCII range as it is, four hexadecimal digits for the rest of
    the first 65536 code points (surrogates included), and the two
    surrogates of its UTF-16 form for a code point above them. *)
Definition escape_char (c : N) : string :=
  if (c =? 34)%N then String backslash (String dquote EmptyString)
  else if (c =? 92)%N then String backslash (String backslash EmptyString)
  else if (c =? 10)%N then String backslash "n"
  else if (c =? 13)%N then String backslash "r"
  else if (c =? 9)%N then String backslash "t"
  else if (c =? 12)%N then String backslash "f"
  else if (c =? 8)%N then String backslash "b"
  else if ((32 <=? c) && (c <=? 126))%N then String (ascii_of_N c) EmptyString
  else if (c <? 65536)%N then escape_unit c
  else
    let n := (c - 65536)%N in
    escape_unit (55296 + (n / 1024) mod 1024)
    ++ escape_unit (56320 + n mod 1024).

Fixpoint escape (s : pystr) : string :=
  match s with
  | [] => EmptyString
  | c :: s' => escape_char c ++ escape s'
  end.

Definition encode_string (s : pystr) : string :=
  String dquote (escape s ++ String dquote EmptyString).

(** [repr] of a Python [int]. *)
Definition string_of_Z (z : Z) : string :=
  NilZero.string_of_int (Z.to_int z).

Fixpoint dumps_value (v : value) : result string :=
  match v with
  | Null => Ok "null"
  | Int z => Ok (string_of_Z z)
  | Str s => Ok (encode_string s)
  | Arr items =>
      body <- (fix join (l : list value) : result string :=
                 match l with
                 | [] => Ok EmptyString
                 | x :: rest =>
                     a <- dumps_value x ;;
                     match rest with
                     | [] => Ok a
                     | _ :: _ => b <- join rest ;; Ok (a ++ ", " ++ b)
                     end
                 end) items ;;
      Ok ("[" ++ body ++ "]")
  | Opaque => Raise TypeError
  end.

(** [sort_keys=True]: the items ordered by key, code point by code point. *)
Fixpoint insert (kv : string * value) (d : dict) : dict :=
  match d with
  | [] => [kv]
  | kv' :: d' =>
      if String.leb (fst kv) (fst kv') then kv :: d
      else kv' :: insert kv d'
  end.


Fixpoint sort_keys (d : dict) : dict :=
  match d with
  | [] => []
  | kv :: d' => insert kv (sort_keys d')
  end.

Definition dumps_item (kv : string * value) : result string :=
  v <- dumps_value (snd kv) ;;
  Ok (encode_string (Unicode.lit (fst kv)) ++ ": " ++ v).

Fixpoint join_items (d : dict) : result string :=
  match d with
  | [] => Ok EmptyString
  | kv :: rest =>
      a <- dumps_item kv ;;
      match rest with
      | [] => Ok a
      | _ :: _ => b <- join_items rest ;; Ok (a ++ ", " ++ b)
      end
  end.

(** [json.dumps(d, sort_keys=True)] *)
Definition dumps (d : dict) : result string :=
  body <- join_items (sort_keys d) ;;
  Ok ("{" ++ body ++ "}").

End Json.

(** ** The [ecdsa] package, as far as the transaction uses it *)

(** [sk_sign sk data] is [sk.sign(data)]; the entropy the package draws for
    a signature is part of the key value.  [from_pem] is [None] where
    [VerifyingKey.from_pem] raises.  [vk_verify vk sig data] is [true] where
    [vk.verify(sig, data)] returns [True] and [false] where it raises
    [BadSignatureError]. *)
Class SignatureScheme : Type := {
  SigningKey : Type;
  VerifyingKey : Type;
  verifying_key : SigningKey -> VerifyingKey;
  sk_sign : SigningKey -> list byte -> list byte;
  to_pem : VerifyingKey -> list byte;
  from_pem : list byte -> option VerifyingKey;
  vk_verify : VerifyingKey -> list byte -> list byte -> bool
}.

(** A key read back from its own PEM text is the key, and a signature
    verifies against the message it was made for. *)
Class SchemeCorrect (S : SignatureScheme) : Prop := {
  from_pem_to_pem : forall vk, from_pem (to_pem vk) = Some vk;
  verify_sign : forall sk m, vk_verify (verifying_key sk) (sk_sign sk m) m = true
}.

(** ** Instance attributes and methods *)

Inductive slot : Type :=
| Unset                (* never assigned *)
| PyNone
| PyStr (s : pystr).

(** Reading an attribute. *)
Definition getattr (a : slot) : result slot :=
  match a with
  | Unset => Raise AttributeError
  | _ => Ok a
  end.

Definition json_of_slot (a : slot) : Json.value :=
  match a with
  | PyStr s => Json.Str s
  | _ => Json.Null
  end.

(** [str(x)] *)
Definition str (a : slot) : pystr :=
  match a with
  | PyStr s => s
  | _ => Unicode.lit "None"
  end.

(** [x.encode()] on an attribute value; [None] has no such method. *)
Definition encode_attr (a : slot) : result (list byte) :=
  match a with
  | PyStr s => Unicode.encode s
  | _ => Raise AttributeError
  end.

(** A method body: it reads and updates [self] and returns or raises. *)
Definition method (Self A : Type) : Type := Self -> result A * Self.

Definition mbind {Self A B} (m : method Self A) (k : A -> method Self B)
  : method Self B :=
  fun self =>
    match m self with
    | (Ok a, self') => k a self'
    | (Raise e, self') => (Raise e, self')
    end.
Definition mread {Self A} (f : Self -> result A) : method Self A :=
  fun self => (f self, self).
Definition mwrite {Self} (f : Self -> Self) : method Self unit :=
  fun self => (Ok tt, f self).

Notation "x <~ c ;; k" := (mbind c (fun x => k))
  (at level 61, c at next level, right associativity).
Notation "c ;;; k" := (mbind c (fun _ => k))
  (at level 61, right associativity).

(** ** [proj_transaction.Transaction] *)

Module Transaction.

(** The attributes of an instance.  [__init__] assigns the first six; the
    methods also read [author], [vk], [signature], [message] and [date]. *)
Record t : Type := mk {
  container_id : pystr;
  event : pystr;
  timestamp : pystr;
  ship : option pystr;
  harbor : option pystr;
  info : list (pystr * pystr);
  author : slot;
  vk : slot;
  signature : slot;
  message : slot;
  date : slot
}.

Definition set_signature (v : slot) (self : t) : t :=
  mk (container_id self) (event self) (timestamp self) (ship self)
     (harbor self) (info self) (author self) (vk self) v
     (message self) (date self).
Definition set_vk (v : slot) (self : t) : t :=
  mk (container_id self) (event self) (timestamp self) (ship self)
     (harbor self) (info self) (author self) v (signature self)
     (message self) (date self).
Definition set_author (v : slot) (self : t) : t :=
  mk (container_id self) (event self) (timestamp self) (ship self)
     (harbor self) (info self) v (vk self) (signature self)
     (message self) (date self).

(** [Transaction(container_id, event, info, harbor, ship, date)]; [now] is
    what [proj_utils.get_time()] returns.  [date or now]: [None] and the
    empty string both give [now]. *)
Definition init (now : pystr) (container_id event : pystr)
    (info : list (pystr * pystr)) (harbor ship date : option pystr) : t :=
  let timestamp :=
    match date with
    | None | Some [] => now
    | Some d => d
    end in
  mk container_id event timestamp ship harbor info
     Unset Unset Unset Unset Unset.

(** The property [data]. *)
Definition data (self : t) : result Json.dict :=
  author <- getattr (author self) ;;
  vk <- getattr (vk self) ;;
  Ok [ ("container_id", Json.Str (container_id self));
       ("event", Json.Str (event self));
       ("author", json_of_slot author);
       ("vk", json_of_slot vk) ].

Definition json_dumps (self : t) : result string :=
  d <- data self ;;
  Json.dumps d.

Section Signing.
Context {S : SignatureScheme}.

Definition sign (sk : SigningKey) : method t unit :=
  json_data <~ mread json_dumps ;;
  let signature := Hex.hex (sk_sign sk (encode json_data)) in
  mwrite (set_signature (PyStr (Unicode.lit signature))) ;;;
  mwrite (set_vk
            (PyStr (Unicode.lit (Hex.hex (to_pem (verifying_key sk)))))) ;;;
  vk_bytes <~ mread (fun self => v <- getattr (vk self) ;; encode_attr v) ;;
  mwrite (set_author (PyStr (Unicode.lit (SHA256.hexdigest vk_bytes)))).

(** [bytes.fromhex(x)] on an attribute value: a character that is neither
    a hexadecimal digit nor ASCII white space raises [ValueError]. *)
Definition bytes_fromhex (a : slot) : result (list byte) :=
  match a with
  | PyStr s =>
      match Unicode.to_text s with
      | Some text =>
          match Hex.fromhex text with
          | Some bs => Ok bs
          | None => Raise ValueError
          end
      | None => Raise ValueError
      end
  | _ => Raise TypeError
  end.

(** The body of the [try] block of [verify]. *)
Definition verify_try (self : t) : result bool :=
  vk_attr <- getattr (vk self) ;;
  pem <- bytes_fromhex vk_attr ;;
  vk <- match from_pem pem with
        | Some k => Ok k
        | None => Raise MalformedKeyError
        end ;;
  sig_attr <- getattr (signature self) ;;
  binary_signature <- bytes_fromhex sig_attr ;;
  json_data <- json_dumps self ;;
  let data := encode json_data in
  if vk_verify vk binary_signature data then Ok true
  else Raise BadSignatureError.

(** [verify]: [except Exception] turns every exception into [False]. *)
Definition verify : method t bool :=
  mread (fun self =>
    match verify_try self with
    | Ok b => Ok b
    | Raise _ => Ok false
    end).

End Signing.

Definition hash : method t string :=
  mread (fun self =>
    signature <- getattr (signature self) ;;
    incomplete <-
      match signature with
      | PyNone => Ok true
      | _ => vk <- getattr (vk self) ;;
             Ok match vk with PyNone => true | _ => false end
      end ;;
    if incomplete : bool then Raise IncompleteTransaction
    else
      dumped <- json_dumps self ;;
      signature <- getattr (Transaction.signature self) ;;
      vk <- getattr (vk self) ;;
      message <- getattr (message self) ;;
      date <- getattr (date self) ;;
      author <- getattr (author self) ;;
      let data_to_hash :=
        (Unicode.lit dumped ++ str signature ++ str vk ++ str message
           ++ str date ++ str author)%list in
      encoded <- Unicode.encode data_to_hash ;;
      Ok (SHA256.hexdigest encoded)).

End Transaction.

(** ** [proj_block.Block] *)

Module Block.

(** What [previous_hash] may hold: a [str], or the bound method [b.hash] of
    a block [b]. *)
Inductive t : Type :=
| mk (index : Z) (previous_hash : link) (timestamp : pystr)
     (transactions : list Transaction.t) (proof : Z)
with link : Type :=
| HashStr (s : pystr)
| BoundHash (owner : t).

Definition index (b : t) : Z := let (i, _, _, _, _) := b in i.
Definition previous_hash (b : t) : link := let (_, p, _, _, _) := b in p.
Definition timestamp (b : t) : pystr := let (_, _, ts, _, _) := b in ts.
Definition transactions (b : t) : list Transaction.t :=
  let (_, _, _, txs, _) := b in txs.
Definition proof (b : t) : Z := let (_, _, _, _, p) := b in p.

(** [s * n] *)
Fixpoint str_mul (s : string) (n : nat) : string :=
  match n with
  | O => EmptyString
  | S n' => s ++ str_mul s n'
  end.

Definition fields (b : t) : Z * link * pystr * list Transaction.t * Z :=
  (index b, previous_hash b, timestamp b, transactions b, proof b).

(** [Block()]: [__init__] with [data=None].  The other branch of
    [__init__] is [BlockObject.__init__] below. *)
Definition genesis : t :=
  mk 0 (HashStr (Unicode.lit (str_mul "0" 64)))
     (Unicode.lit "2023-11-24 00:00:00.000000") [] 0.

(** [self.next(transactions)]; [now] is what [proj_utils.get_time()]
    returns.  The new block starts as [Block()] and every attribute is then
    assigned; [previous_hash] receives [self.hash], the method itself. *)
Definition next (now : pystr) (self : t) (txs : list Transaction.t) : t :=
  let new_block := genesis in
  let new_block := mk (index self + 1) (previous_hash new_block)
                      (timestamp new_block) (transactions new_block)
                      (proof new_block) in
  let new_block := mk (index new_block) (BoundHash self)
                      (timestamp new_block) (transactions new_block)
                      (proof new_block) in
  let new_block := mk (index new_block) (previous_hash new_block) now
                      (transactions new_block) (proof new_block) in
  let new_block := mk (index new_block) (previous_hash new_block)
                      (timestamp new_block) txs (proof new_block) in
  mk (index new_block) (previous_hash new_block) (timestamp new_block)
     (transactions new_block) 0.

Definition json_of_link (p : link) : Json.value :=
  match p with
  | HashStr s => Json.Str s
  | BoundHash _ => Json.Opaque
  end.

(** The dictionary built by [data] and, again, by [hash]. *)
Definition data (self : t) : Json.dict :=
  [ ("index", Json.Int (index self));
    ("previous_hash", json_of_link (previous_hash self));
    ("timestamp", Json.Str (timestamp self));
    ("transactions", Json.Arr (map (fun _ => Json.Opaque) (transactions self)));
    ("proof", Json.Int (proof self)) ].

Definition json_dumps (self : t) : result string := Json.dumps (data self).

(** [hash], lines 85 to 97 as shipped.  Lines 85 to 94 build the dictionary
    and encode it.  Line 97, which is meant to return the digest, ends in
    a stray character and is no statement of the language: Python reports
    it as a [SyntaxError] when it loads the module.  The lines before are
    read as written and the error is placed where the line stands, so
    [hash] returns on no block. *)
Definition hash (self : t) : result string :=
  sorted_block_data <- Json.dumps (data self) ;;
  Raise SyntaxError.

End Block.

(** ** Proof of work *)

Module Mining.

(** [proj_block.py] holds [valid_proof] and [mine] only as commented-out
    text; the definitions of this module follow the specification of
    [isValidProof] and [mine], over the hash [Block.hash] computes. *)

(** Modelled from the spec: the number of leading characters ['0'] of a
    hash, for [Block.isValidProof], which the source holds only in a
    comment. *)
Fixpoint leading_zeros (s : string) : nat :=
  match s with
  | String c s' => if Ascii.eqb c "0" then S (leading_zeros s') else O
  | EmptyString => O
  end.

(** Modelled from the spec: the test "is the canonical genesis block", for
    [Block.isValidProof], which the source holds only in a comment: the
    five fields are those [Block()] assigns. *)
Definition is_genesis (b : Block.t) : bool :=
  (Block.index b =? 0) &&
  match Block.previous_hash b with
  | Block.HashStr s => Unicode.eqb s (Unicode.lit (Block.str_mul "0" 64))
  | Block.BoundHash _ => false
  end &&
  Unicode.eqb (Block.timestamp b) (Block.timestamp Block.genesis) &&
  match Block.transactions b with [] => true | _ :: _ => false end &&
  (Block.proof b =? 0).

(** Modelled from the spec: [Block.isValidProof(difficulty)], which the
    source holds only in a comment.  It recomputes [hash()] and checks that
    it starts with at least [difficulty] characters ['0']; it is always
    true for the genesis block. *)
Definition isValidProof (difficulty : Z) (b : Block.t) : result bool :=
  h <- Block.hash b ;;
  Ok (is_genesis b || (difficulty <=? Z.of_nat (leading_zeros h))).

(** Modelled from the spec: the assignment [self.proof = p] of
    [Block.mine], which the source holds only in a comment. *)
Definition set_proof (p : Z) (b : Block.t) : Block.t :=
  Block.mk (Block.index b) (Block.previous_hash b) (Block.timestamp b)
           (Block.transactions b) p.

(** Modelled from the spec: [Block.mine(difficulty)], which the source
    holds only in a comment.  It tries the current proof, then the next
    ones, until [isValidProof] holds; it returns the winning proof and
    leaves it on the block.  [fuel] bounds the number of proofs tried;
    [None] is a search that has not finished within [fuel] tries. *)
Fixpoint mine (fuel : nat) (difficulty : Z) (b : Block.t)
  : option (result Z * Block.t) :=
  match fuel with
  | O => None
  | S fuel' =>
      match isValidProof difficulty b with
      | Raise e => Some (Raise e, b)
      | Ok true => Some (Ok (Block.proof b), b)
      | Ok false => mine fuel' difficulty (set_proof (Block.proof b + 1) b)
      end
  end.

End Mining.

(** ** Signed and unsigned transactions *)

Module State.

Definition is_unset (a : slot) : bool :=
  match a with Unset => true | _ => false end.

(** None of the three attributes has been assigned. *)
Definition is_unsigned (x : Transaction.t) : bool :=
  is_unset (Transaction.author x) && is_unset (Transaction.vk x) &&
  is_unset (Transaction.signature x).

(** The three attributes hold strings and [author] is the SHA-256 of [vk]. *)
Definition is_fully_signed (x : Transaction.t) : bool :=
  match Transaction.author x, Transaction.vk x, Transaction.signature x with
  | PyStr a, PyStr v, PyStr _ =>
      match Unicode.encode v with
      | Ok bs => Unicode.eqb a (Unicode.lit (SHA256.hexdigest bs))
      | Raise _ => false
      end
  | _, _, _ => false
  end.

(** Unsigned or fully signed. *)
Definition well_formed (x : Transaction.t) : bool :=
  State.is_unsigned x || State.is_fully_signed x.

Section Ops.
Context {S : SignatureScheme}.

Inductive op : Type :=
| Sign (sk : SigningKey)
| Verify
| Hash.

(** The object after one call, whether it returned or raised. *)
Definition step (x : Transaction.t) (o : op) : Transaction.t :=
  match o with
  | Sign sk => snd (Transaction.sign sk x)
  | Verify => snd (Transaction.verify x)
  | Hash => snd (Transaction.hash x)
  end.

Definition run (ops : list op) (x : Transaction.t) : Transaction.t :=
  fold_left step ops x.

(** The bytes [bytes.fromhex] reads from an attribute, when it can. *)
Definition hex_bytes (a : slot) : option (list byte) :=
  match a with
  | PyStr s =>
      match Unicode.to_text s with
      | Some text => Hex.fromhex text
      | None => None
      end
  | _ => None
  end.

(** The key [verify] decodes from [vk], when it can. *)
Definition stored_key (x : Transaction.t) : option VerifyingKey :=
  match hex_bytes (Transaction.vk x) with
  | Some pem => from_pem pem
  | None => None
  end.

Definition stored_signature (x : Transaction.t) : option (list byte) :=
  hex_bytes (Transaction.signature x).

(** The stored signature validates against the re-encoded data under the
    stored key. *)
Definition signature_matches (x : Transaction.t) : bool :=
  match stored_key x, stored_signature x, Transaction.json_dumps x with
  | Some k, Some sg, Ok m => vk_verify k sg (encode m)
  | _, _, _ => false
  end.

(** The bytes [sign] passes to [sk.sign]. *)
Definition signed_message (x : Transaction.t) : result (list byte) :=
  m <- Transaction.json_dumps x ;; Ok (encode m).

(** What [sign] leaves in the three attributes when it returns. *)
Definition signed_with (sk : SigningKey) (m : string) (x : Transaction.t)
  : Transaction.t :=
  let vk_hex := Hex.hex (to_pem (verifying_key sk)) in
  Transaction.set_author
    (PyStr (Unicode.lit (SHA256.hexdigest (encode vk_hex))))
    (Transaction.set_vk (PyStr (Unicode.lit vk_hex))
       (Transaction.set_signature
          (PyStr (Unicode.lit (Hex.hex (sk_sign sk (encode m))))) x)).

End Ops.
End State.

(** ** [Transaction.__str__] and [Transaction.__lt__] *)

Module Ordering.

(** [__str__]: the f-string reads [message], [date], [author], [vk] and
    [signature], in this order. *)
Definition __str__ (self : Transaction.t) : result pystr :=
  message <- getattr (Transaction.message self) ;;
  date <- getattr (Transaction.date self) ;;
  author <- getattr (Transaction.author self) ;;
  vk <- getattr (Transaction.vk self) ;;
  signature <- getattr (Transaction.signature self) ;;
  Ok (Unicode.lit "Transaction(message=" ++ str message ++
      Unicode.lit ", date=" ++ str date ++
      Unicode.lit ", author=" ++ str author ++
      Unicode.lit ", vk=" ++ str vk ++
      Unicode.lit ", signature=" ++ str signature ++ Unicode.lit ")")%list.

(** Truth value of a [str]: false for the empty string only. *)
Definition truthy (s : string) : bool :=
  match s with
  | EmptyString => false
  | String _ _ => true
  end.

(** [a < b] on attribute values: defined between two [str] only. *)
Definition slot_lt (a b : slot) : result bool :=
  match a, b with
  | PyStr x, PyStr y => Ok (Unicode.ltb x y)
  | _, _ => Raise TypeError
  end.

(** [self.__lt__(other)] *)
Definition __lt__ (self other : Transaction.t) : result bool :=
  self_dumped <- Transaction.json_dumps self ;;
  let self_hash := SHA256.hexdigest (encode self_dumped) in
  other_dumped <- Transaction.json_dumps other ;;
  let other_hash := SHA256.hexdigest (encode other_dumped) in
  if truthy self_hash && truthy other_hash then
    Ok (String.ltb self_hash other_hash)
  else
    self_date <- getattr (Transaction.date self) ;;
    other_date <- getattr (Transaction.date other) ;;
    slot_lt self_date other_date.

End Ordering.

(** ** [Block], as an object with named attributes *)

Module BlockObject.

(** The attributes an instance holds, by name, the latest assignment
    first.  A value is what [json.dumps] distinguishes ([Json.value]). *)
Definition t : Type := list (string * Json.value).

Fixpoint lookup (name : string) (o : list (string * Json.value))
  : option Json.value :=
  match o with
  | [] => None
  | (k, v) :: o' => if String.eqb k name then Some v else lookup name o'
  end.

(** [self.name] *)
Definition getattr (o : t) (name : string) : result Json.value :=
  match lookup name o with
  | Some v => Ok v
  | None => Raise AttributeError
  end.

(** [self.name = v] *)
Definition setattr (name : string) (v : Json.value) (o : t) : t :=
  (name, v) :: o.

(** The argument [data] of [__init__], when it is not [None]. *)
Inductive arg : Type :=
| Dict (d : Json.dict)
| NotADict (v : Json.value).

Definition required_keys : list string :=
  ["index"; "previous_hash"; "timestamp"; "transaction"; "proof"].

(** [key not in data] raises [InvalidBlock]; otherwise [data[key]].  The
    loop over [required_keys] raises at the first key missing and the
    assignments that follow read the same keys in the same order, so each
    key is looked up once here. *)
Definition require (key : string) (d : Json.dict) : result Json.value :=
  match lookup key d with
  | Some v => Ok v
  | None => Raise InvalidBlock
  end.

(** [Block(data)] *)
Definition __init__ (data : option arg) : result t :=
  match data with
  | None =>
      Ok (setattr "proof" (Json.Int 0)
           (setattr "transactions" (Json.Arr [])
             (setattr "timestamp"
                (Json.Str (Unicode.lit "2023-11-24 00:00:00.000000"))
               (setattr "previous_hash"
                  (Json.Str (Unicode.lit (Block.str_mul "0" 64)))
                 (setattr "index" (Json.Int 0) [])))))
  | Some (NotADict _) => Raise InvalidBlock
  | Some (Dict d) =>
      index <- require "index" d ;;
      previous_hash <- require "previous_hash" d ;;
      timestamp <- require "timestamp" d ;;
      transaction <- require "transaction" d ;;
      proof <- require "proof" d ;;
      Ok (setattr "proof" proof
           (setattr "transaction" transaction
             (setattr "timestamp" timestamp
               (setattr "previous_hash" previous_hash
                 (setattr "index" index [])))))
  end.

(** The property [data]; [hash] builds the same dictionary. *)
Definition data (self : t) : result Json.dict :=
  index <- getattr self "index" ;;
  previous_hash <- getattr self "previous_hash" ;;
  timestamp <- getattr self "timestamp" ;;
  transactions <- getattr self "transactions" ;;
  proof <- getattr self "proof" ;;
  Ok [ ("index", index); ("previous_hash", previous_hash);
       ("timestamp", timestamp); ("transactions", transactions);
       ("proof", proof) ].

Definition json_dumps (self : t) : result string :=
  d <- data self ;; Json.dumps d.

(** [hash], as shipped: see [Block.hash] for line 97. *)
Definition hash (self : t) : result string :=
  block_data <- data self ;;
  sorted_block_data <- Json.dumps block_data ;;
  Raise SyntaxError.

(** The attributes of a block of [Block.t]. *)
Definition of_block (b : Block.t) : t :=
  setattr "proof" (Json.Int (Block.proof b))
    (setattr "transactions"
       (Json.Arr (map (fun _ => Json.Opaque) (Block.transactions b)))
      (setattr "timestamp" (Json.Str (Block.timestamp b))
        (setattr "previous_hash" (Block.json_of_link (Block.previous_hash b))
          (setattr "index" (Json.Int (Block.index b)) [])))).

End BlockObject.

(** ** Chains of successors *)

Module Chain.

(** [b.next(txs1).next(txs2)...], one clock reading and one batch a step. *)
Definition extend (b : Block.t)
    (steps : list (pystr * list Transaction.t)) : Block.t :=
  fold_left (fun blk step => Block.next (fst step) blk (snd step)) steps b.

(** The block [n] links behind [b], following the object each
    [previous_hash] is bound to. *)
Fixpoint back (n : nat) (b : Block.t) : option Block.t :=
  match n with
  | O => Some b
  | S n' =>
      match Block.previous_hash b with
      | Block.BoundHash owner => back n' owner
      | Block.HashStr _ => None
      end
  end.

End Chain.

(** ** Reading back what [Json] writes *)

Module JsonRead.

Local Open Scope N_scope.

Definition cons_fst (u : N) (r : option (list N * string))
  : option (list N * string) :=
  match r with
  | Some (us, rest) => Some (u :: us, rest)
  | None => None
  end.

Definition unhex4 (a b c d : ascii) : option N :=
  match Hex.value a, Hex.value b, Hex.value c, Hex.value d with
  | Some x3, Some x2, Some x1, Some x0 =>
      Some (4096 * x3 + 256 * x2 + 16 * x1 + x0)
  | _, _, _, _ => None
  end.

(** Reads an escaped string up to its closing quote: the UTF-16 code units
    it stands for, and what follows the quote. *)
Fixpoint read_string (s : string) : option (list N * string) :=
  match s with
  | EmptyString => None
  | String c r =>
      if Ascii.eqb c Json.dquote then Some ([], r)
      else if Ascii.eqb c Json.backslash then
        match r with
        | EmptyString => None
        | String e r1 =>
            if Ascii.eqb e "u" then
              match r1 with
              | String a (String b (String c (String d r2))) =>
                  match unhex4 a b c d with
                  | Some u => cons_fst u (read_string r2)
                  | None => None
                  end
              | _ => None
              end
            else if Ascii.eqb e "n" then cons_fst 10 (read_string r1)
            else if Ascii.eqb e "r" then cons_fst 13 (read_string r1)
            else if Ascii.eqb e "t" then cons_fst 9 (read_string r1)
            else if Ascii.eqb e "f" then cons_fst 12 (read_string r1)
            else if Ascii.eqb e "b" then cons_fst 8 (read_string r1)
            else cons_fst (N_of_ascii e) (read_string r1)
        end
      else cons_fst (N_of_ascii c) (read_string r)
  end.



End JsonRead.

(** ** UTF-16 code units *)

Module Utf16.

Local Open Scope N_scope.

(** The code units of one code point: itself below 65536, else its two
    surrogates. *)
Definition units_of_char (c : N) : list N :=
  if c <? 65536 then [c]
  else
    let n := c - 65536 in
    [55296 + (n / 1024) mod 1024; 56320 + n mod 1024].

Definition units (s : pystr) : list N := flat_map units_of_char s.

Definition is_high (u : N) : bool := (55296 <=? u) && (u <? 56320).
Definition is_low (u : N) : bool := (56320 <=? u) && (u <? 57344).

(** Joins each high surrogate followed by a low one. *)
Fixpoint decode (us : list N) : pystr :=
  match us with
  | [] => []
  | u :: rest =>
      match rest with
      | l :: rest' =>
          if is_high u && is_low l then
            (65536 + (u - 55296) * 1024 + (l - 56320)) :: decode rest'
          else u :: decode rest
      | [] => [u]
      end
  end.

End Utf16.

(** ** Reading back [encode] on a text *)

Module Utf8.

(** Inverse of [encode] on what it produces. *)
Fixpoint decode (bs : list byte) : option string :=
  match bs with
  | [] => Some EmptyString
  | b :: rest =>
      let n := Byte.to_N b in
      if (n <? 128)%N then
        match decode rest with
        | Some s => Some (String (ascii_of_byte b) s)
        | None => None
        end
      else
        match rest with
        | [] => None
        | b2 :: rest' =>
            match decode rest' with
            | Some s =>
                Some (String (ascii_of_N ((n - 192) * 64
                                          + (Byte.to_N b2 - 128))) s)
            | None => None
            end
        end
  end.

End Utf8.

(** ** A signature scheme to run the methods on *)

Module ToyScheme.

(** The verifying key is the signing key and a signature is the key
    followed by the message: enough to evaluate [sign] and [verify]. *)
#[local] Instance toy : SignatureScheme := {|
  SigningKey := list byte;
  VerifyingKey := list byte;
  verifying_key := fun sk => sk;
  sk_sign := fun sk m => (sk ++ m)%list;
  to_pem := fun vk => vk;
  from_pem := fun bs => Some bs;
  vk_verify := fun vk sg m =>
    if list_eq_dec Byte.byte_eq_dec sg (vk ++ m)%list then true else false
|}.

End ToyScheme.

(** ** The text [json_dumps] produces *)

(** What [json.dumps] writes for an attribute value. *)
Definition slot_text (a : slot) : string :=
  match a with
  | PyStr s => Json.encode_string s
  | _ => "null"
  end.

Definition json_key (k : string) : string :=
  Json.encode_string (Unicode.lit k) ++ ": ".

Definition transaction_text (a v : slot) (c e : pystr) : string :=
  "{" ++ json_key "author" ++ slot_text a ++ ", " ++
  json_key "container_id" ++ Json.encode_string c ++ ", " ++
  json_key "event" ++ Json.encode_string e ++ ", " ++
  json_key "vk" ++ slot_text v ++ "}".

Definition block_text (i : Z) (p : pystr) (pr : Z) (ts : pystr) : string :=
  "{" ++ json_key "index" ++ Json.string_of_Z i ++ ", " ++
  json_key "previous_hash" ++ Json.encode_string p ++ ", " ++
  json_key "proof" ++ Json.string_of_Z pr ++ ", " ++
  json_key "timestamp" ++ Json.encode_string ts ++ ", " ++
  json_key "transactions" ++ "[]" ++ "}".


(** The UTF-16 code units of the string an attribute holds. *)
Definition slot_units (a : slot) : option (list N) :=
  match a with
  | PyStr s => Some (Utf16.units s)
  | _ => None
  end.



(** ** Concrete transactions and blocks *)

Module Run.
Import ToyScheme.

Definition clock : pystr := Unicode.lit "2024-01-01 10:00:00.000000".
Definition later : pystr := Unicode.lit "2025-06-30 08:30:00.000000".

(** A transaction whose [author] and [vk] were assigned [None] after
    construction, so that [data] can be read. *)
Definition prepared (now container_id : pystr) (info : list (pystr * pystr))
  : Transaction.t :=
  Transaction.set_author PyNone
    (Transaction.set_vk PyNone
       (Transaction.init now container_id (Unicode.lit "loaded") info
          None None None)).

Definition size_info : list (pystr * pystr) :=
  [(Unicode.lit "size", Unicode.lit "40ft")].

Definition new_tx : Transaction.t :=
  Transaction.init clock (Unicode.lit "C1") (Unicode.lit "loaded")
    size_info None None None.
Definition tx_a : Transaction.t := prepared clock (Unicode.lit "C1") size_info.
Definition tx_later : Transaction.t :=
  prepared later (Unicode.lit "C1") size_info.
Definition tx_no_info : Transaction.t := prepared clock (Unicode.lit "C1") [].

(** Two transactions whose [container_id] differ: the code point U+1F600,
    and the two surrogates U+D83D, U+DE00 of its UTF-16 form. *)
Definition tx_astral : Transaction.t := prepared clock [128512%N] size_info.
Definition tx_pair : Transaction.t :=
  prepared clock [55357%N; 56832%N] size_info.

Definition key_one : @SigningKey toy := encode "k1".
Definition key_two : @SigningKey toy := encode "k2".

Definition signed_tx : Transaction.t :=
  snd (Transaction.sign (S := toy) key_one tx_a).


(** The successor of the genesis block, as [next] builds it. *)
Definition block_one : Block.t := Block.next clock Block.genesis [].

End Run.

(** * Properties *)

#[local] Arguments SHA256.hexdigest : simpl never.
#[local] Arguments encode : simpl never.
#[local] Arguments Unicode.lit : simpl never.

Ltac lia_div := zify; Z.to_euclidean_division_equations; lia.

Lemma Ok_inj {A : Type} (a b : A) : Ok a = Ok b -> a = b.
Proof. now intros [= ->]. Qed.

(** ** Strings *)

Lemma append_assoc (a b c : string) : (a ++ b) ++ c = a ++ (b ++ c).
Proof. induction a as [|x a IH]; simpl; [reflexivity | now rewrite IH]. Qed.

Lemma length_append (a b : string) :
  String.length (a ++ b) = (String.length a + String.length b)%nat.
Proof. induction a as [|x a IH]; simpl; [reflexivity | now rewrite IH]. Qed.

Lemma append_inv_head (p a b : string) : p ++ a = p ++ b -> a = b.
Proof.
  induction p as [|x p IH]; simpl; intros H; [exact H|].
  injection H as H. now apply IH.
Qed.

(** ** Code points *)

Lemma to_text_lit (s : string) : Unicode.to_text (Unicode.lit s) = Some s.
Proof.
  unfold Unicode.lit. induction s as [|a s IH]; [reflexivity|].
  cbn [list_ascii_of_string map Unicode.to_text].
  assert (H : (N_of_ascii a <? 256)%N = true)
    by (apply N.ltb_lt, N_ascii_bounded).
  now rewrite H, IH, ascii_N_embedding.
Qed.

Lemma encode_char_lit (a : ascii) :
  Unicode.encode_char (N_of_ascii a) = Some (encode_char a).
Proof.
  destruct a as [b0 b1 b2 b3 b4 b5 b6 b7];
    destruct b0, b1, b2, b3, b4, b5, b6, b7; reflexivity.
Qed.

(** [encode] on a text is [str.encode()] on the [str] it is. *)
Lemma encode_lit (s : string) : Unicode.encode (Unicode.lit s) = Ok (encode s).
Proof.
  unfold Unicode.lit. induction s as [|a s IH]; [reflexivity|].
  cbn [list_ascii_of_string map Unicode.encode].
  now rewrite encode_char_lit, IH.
Qed.

Lemma lit_app (a b : string) :
  Unicode.lit (a ++ b) = (Unicode.lit a ++ Unicode.lit b)%list.
Proof.
  unfold Unicode.lit. induction a as [|x a IH]; [reflexivity|].
  cbn [String.append list_ascii_of_string map app]. now rewrite IH.
Qed.

Lemma unicode_eqb_refl (s : pystr) : Unicode.eqb s s = true.
Proof.
  induction s as [|c s IH]; [reflexivity|].
  cbn [Unicode.eqb]. now rewrite N.eqb_refl, IH.
Qed.

Lemma encode_char_none (c : N) :
  Unicode.encode_char c = None <-> Unicode.is_surrogate c = true.
Proof.
  unfold Unicode.encode_char, Unicode.is_surrogate.
  destruct (N.ltb_spec c 128) as [L|L];
    [split; [discriminate | intros E; exfalso]|].
  { apply andb_true_iff in E as [H1 _]. apply N.leb_le in H1. lia. }
  destruct (N.ltb_spec c 2048) as [L'|L'];
    [split; [discriminate | intros E; exfalso]|].
  { apply andb_true_iff in E as [H1 _]. apply N.leb_le in H1. lia. }
  destruct ((55296 <=? c)%N && (c <=? 57343)%N); [now split|].
  destruct (c <? 65536)%N; split; discriminate.
Qed.

(** [str.encode()] returns exactly on a string without surrogate, and
    raises [UnicodeEncodeError] otherwise. *)
Lemma encode_outcome (s : pystr) :
  if Unicode.no_surrogate s
  then exists bs, Unicode.encode s = Ok bs
  else Unicode.encode s = Raise UnicodeEncodeError.
Proof.
  induction s as [|c s IH]; [now eexists|].
  cbn [Unicode.no_surrogate forallb Unicode.encode].
  fold (Unicode.no_surrogate s).
  destruct (Unicode.encode_char c) as [bs|] eqn:E.
  - assert (Hc : Unicode.is_surrogate c = false).
    { destruct (Unicode.is_surrogate c) eqn:Hs; [|reflexivity].
      apply encode_char_none in Hs. congruence. }
    rewrite Hc. cbn [negb andb].
    destruct (Unicode.no_surrogate s).
    + destruct IH as [rest ->]. now eexists.
    + now rewrite IH.
  - apply encode_char_none in E. now rewrite E.
Qed.

Lemma no_surrogate_app (a b : pystr) :
  Unicode.no_surrogate (a ++ b)%list
  = Unicode.no_surrogate a && Unicode.no_surrogate b.
Proof. unfold Unicode.no_surrogate. apply forallb_app. Qed.

Lemma no_surrogate_lit (s : string) : Unicode.no_surrogate (Unicode.lit s) = true.
Proof.
  unfold Unicode.lit, Unicode.no_surrogate.
  induction s as [|a s IH]; [reflexivity|].
  cbn [list_ascii_of_string map forallb]. rewrite IH, andb_true_r.
  pose proof (N_ascii_bounded a) as H. unfold Unicode.is_surrogate.
  destruct (N.leb_spec 55296 (N_of_ascii a)); [lia | reflexivity].
Qed.

(** ** Reading back an escaped string *)

Lemma hex_value_digit (n : N) : (n < 16)%N -> Hex.value (Hex.digit n) = Some n.
Proof.
  intros H. destruct n as [|p]; [reflexivity|].
  do 4 (destruct p as [p|p|]; try reflexivity); lia.
Qed.

Lemma unhex4_digits (u : N) :
  (u < 65536)%N ->
  JsonRead.unhex4 (Hex.digit ((u / 4096) mod 16)) (Hex.digit ((u / 256) mod 16))
                  (Hex.digit ((u / 16) mod 16)) (Hex.digit (u mod 16))
  = Some u.
Proof.
  intros H. unfold JsonRead.unhex4.
  rewrite !hex_value_digit by (apply N.mod_lt; discriminate).
  f_equal. lia_div.
Qed.

Lemma read_escape_unit (u : N) (rest : string) :
  (u < 65536)%N ->
  JsonRead.read_string (Json.escape_unit u ++ rest)
  = JsonRead.cons_fst u (JsonRead.read_string rest).
Proof.
  intros H. unfold Json.escape_unit.
  cbn [String.append JsonRead.read_string].
  change (Ascii.eqb Json.backslash Json.dquote) with false.
  change (Ascii.eqb Json.backslash Json.backslash) with true.
  change (Ascii.eqb "u" "u") with true.
  cbv iota. now rewrite unhex4_digits.
Qed.

Lemma read_escape_low (a : ascii) (rest : string) :
  JsonRead.read_string (Json.escape_char (N_of_ascii a) ++ rest)
  = JsonRead.cons_fst (N_of_ascii a) (JsonRead.read_string rest).
Proof.
  destruct a as [b0 b1 b2 b3 b4 b5 b6 b7];
    destruct b0, b1, b2, b3, b4, b5, b6, b7; reflexivity.
Qed.

Lemma escape_char_high (c : N) :
  (256 <= c)%N ->
  Json.escape_char c =
  if (c <? 65536)%N then Json.escape_unit c
  else Json.escape_unit (55296 + ((c - 65536) / 1024) mod 1024)
       ++ Json.escape_unit (56320 + (c - 65536) mod 1024).
Proof.
  intros H. unfold Json.escape_char.
  repeat match goal with
         | |- context [(c =? ?k)%N] =>
             destruct (N.eqb_spec c k); [lia|]
         end.
  destruct (N.leb_spec c 126); [lia|]. now rewrite andb_false_r.
Qed.

Lemma read_escape_char (c : N) (rest : string) :
  JsonRead.read_string (Json.escape_char c ++ rest)
  = fold_right JsonRead.cons_fst (JsonRead.read_string rest)
      (Utf16.units_of_char c).
Proof.
  destruct (N.lt_ge_cases c 256) as [H|H].
  - rewrite <- (N_ascii_embedding c H), read_escape_low.
    rewrite (N_ascii_embedding c H). unfold Utf16.units_of_char.
    destruct (N.ltb_spec c 65536); [reflexivity | lia].
  - rewrite (escape_char_high c H). unfold Utf16.units_of_char.
    destruct (N.ltb_spec c 65536) as [H'|H'].
    + now rewrite read_escape_unit.
    + cbv zeta. cbn [fold_right].
      rewrite append_assoc, !read_escape_unit; [reflexivity| |]; lia_div.
Qed.

Lemma read_escape (s : pystr) (rest : string) :
  JsonRead.read_string (Json.escape s ++ String Json.dquote rest)
  = Some (Utf16.units s, rest).
Proof.
  induction s as [|c s IH]; [reflexivity|].
  cbn [Json.escape]. rewrite append_assoc, read_escape_char, IH.
  unfold Utf16.units. cbn [flat_map].
  generalize (Utf16.units_of_char c). intros us.
  induction us as [|u us IHus]; [reflexivity|].
  cbn [fold_right app]. now rewrite IHus.
Qed.

(** Two escaped strings that read the same stand for the same UTF-16 code
    units. *)
Lemma encode_string_app_inj (s s' : pystr) (r r' : string) :
  Json.encode_string s ++ r = Json.encode_string s' ++ r' ->
  Utf16.units s = Utf16.units s' /\ r = r'.
Proof.
  unfold Json.encode_string; simpl. intros H. injection H as H.
  rewrite !append_assoc in H. simpl in H.
  apply (f_equal JsonRead.read_string) in H.
  rewrite !read_escape in H. now injection H.
Qed.

(** ** UTF-16 code units read back *)

Lemma units_of_char_not_nil (c : N) : Utf16.units_of_char c <> [].
Proof. unfold Utf16.units_of_char. now destruct (c <? 65536)%N. Qed.

Lemma decode_units (s : pystr) :
  Unicode.scalars s = true -> Utf16.decode (Utf16.units s) = s.
Proof.
  induction s as [|c s IH]; [reflexivity|].
  cbn [Unicode.scalars forallb]. fold (Unicode.scalars s).
  intros H. apply andb_true_iff in H as [Hc Hs]. specialize (IH Hs).
  unfold Unicode.is_scalar, Unicode.is_surrogate in Hc.
  apply andb_true_iff in Hc as [Hmax Hsur].
  apply N.ltb_lt in Hmax. apply negb_true_iff in Hsur.
  assert (Hns : (c < 55296 \/ 57343 < c)%N)
    by (apply andb_false_iff in Hsur as [H3|H3]; apply N.leb_gt in H3; lia).
  clear Hsur.
  unfold Utf16.units. cbn [flat_map]. fold (Utf16.units s).
  unfold Utf16.units_of_char.
  destruct (N.ltb_spec c 65536) as [Hlow|Hhigh].
  - cbn [app Utf16.decode].
    destruct (Utf16.units s) as [|l rest] eqn:Eu.
    + destruct s as [|c' s']; [reflexivity|].
      exfalso. unfold Utf16.units in Eu. cbn [flat_map] in Eu.
      apply app_eq_nil in Eu as [Eu _].
      now apply units_of_char_not_nil in Eu.
    + assert (Hh : Utf16.is_high c = false).
      { unfold Utf16.is_high.
        destruct (N.leb_spec 55296 c) as [H1|H1]; [|reflexivity].
        destruct (N.ltb_spec c 56320) as [H2|H2]; [|reflexivity].
        exfalso. lia. }
      rewrite Hh. cbn [andb]. now rewrite IH.
  - cbv zeta. cbn [app Utf16.decode].
    assert (Hh : Utf16.is_high (55296 + ((c - 65536) / 1024) mod 1024) = true).
    { unfold Utf16.is_high. apply andb_true_iff. split;
        [apply N.leb_le | apply N.ltb_lt]; lia_div. }
    assert (Hl : Utf16.is_low (56320 + (c - 65536) mod 1024) = true).
    { unfold Utf16.is_low. apply andb_true_iff. split;
        [apply N.leb_le | apply N.ltb_lt]; lia_div. }
    rewrite Hh, Hl. cbn [andb]. rewrite IH. f_equal. lia_div.
Qed.

(** On strings of Unicode scalar values the code units fix the string. *)
Lemma units_inj (s s' : pystr) :
  Unicode.scalars s = true -> Unicode.scalars s' = true ->
  Utf16.units s = Utf16.units s' -> s = s'.
Proof.
  intros H H' E. rewrite <- (decode_units s H), <- (decode_units s' H').
  now rewrite E.
Qed.

(** ** Reading back an integer *)





(** ** Sorting by key *)

Section SortKeys.

Local Open Scope list_scope.










End SortKeys.


(** ** SHA-256 digests *)

(** The digest of the three-letter message of FIPS 180-4, appendix B.1. *)
Example hexdigest_abc :
  SHA256.hexdigest (encode "abc")
  = "ba7816bf8f01cfea414140de5dae2223b00361a396177a9cb410ff61f20015ad".
Proof. vm_compute. reflexivity. Qed.

(** A message of two blocks once padded. *)
Example hexdigest_two_blocks :
  SHA256.hexdigest
    (encode "abcdbcdecdefdefgefghfghighijhijkijkljklmklmnlmnomnopnopq")
  = "248d6a61d20638b8e5c026930c3e6039a33ce45964ff2167f6ecedd419db06c1".
Proof. vm_compute. reflexivity. Qed.

Lemma hex_word_length (x : Z) : String.length (SHA256.hex_word x) = 8%nat.
Proof. reflexivity. Qed.

Lemma hexdigest_length (msg : list byte) :
  String.length (SHA256.hexdigest msg) = 64%nat.
Proof.
  unfold SHA256.hexdigest. cbv zeta.
  now rewrite !length_append, !hex_word_length.
Qed.

(** ** Hexadecimal text reads back *)

Lemma fromhex_hex_byte (b : byte) (rest : string) :
  Hex.fromhex (String (Hex.digit (Byte.to_N b / 16))
                 (String (Hex.digit (Byte.to_N b mod 16)) rest))
  = match Hex.fromhex rest with
    | Some bs => Some (b :: bs)
    | None => None
    end.
Proof. destruct b; reflexivity. Qed.

Lemma fromhex_hex (bs : list byte) : Hex.fromhex (Hex.hex bs) = Some bs.
Proof.
  induction bs as [|b bs IH]; [reflexivity|].
  cbn [Hex.hex]. cbv zeta. now rewrite fromhex_hex_byte, IH.
Qed.

(** ** [encode] on a text reads back *)

Lemma decode_encode_char (c : ascii) (rest : list byte) :
  Utf8.decode (encode_char c ++ rest)%list
  = match Utf8.decode rest with
    | Some s => Some (String c s)
    | None => None
    end.
Proof.
  destruct c as [b0 b1 b2 b3 b4 b5 b6 b7];
    destruct b0, b1, b2, b3, b4, b5, b6, b7; reflexivity.
Qed.

Lemma decode_encode (s : string) : Utf8.decode (encode s) = Some s.
Proof.
  induction s as [|c s IH]; [reflexivity|].
  change (encode (String c s)) with (encode_char c ++ encode s)%list.
  now rewrite decode_encode_char, IH.
Qed.

Lemma encode_inj (s s' : string) : encode s = encode s' -> s = s'.
Proof.
  intros E. apply (f_equal Utf8.decode) in E.
  rewrite !decode_encode in E. now injection E.
Qed.


(** ** The text [json_dumps] produces *)

#[local] Arguments block_text : simpl never.
#[local] Arguments transaction_text : simpl never.

Ltac dumps_normal_form :=
  cbn -[Json.string_of_Z Json.escape Json.encode_string String.append
        Unicode.lit];
  unfold json_key; rewrite ?append_assoc; reflexivity.

Lemma transaction_json_dumps (x : Transaction.t) :
  Transaction.json_dumps x =
  match Transaction.author x, Transaction.vk x with
  | Unset, _ | _, Unset => Raise AttributeError
  | a, v => Ok (transaction_text a v (Transaction.container_id x)
                                 (Transaction.event x))
  end.
Proof.
  unfold Transaction.json_dumps, Transaction.data, transaction_text,
    Json.dumps, slot_text.
  destruct (Transaction.author x), (Transaction.vk x);
    try reflexivity; dumps_normal_form.
Qed.

Lemma block_json_dumps (b : Block.t) :
  Block.json_dumps b =
  match Block.previous_hash b, Block.transactions b with
  | Block.HashStr p, [] =>
      Ok (block_text (Block.index b) p (Block.proof b) (Block.timestamp b))
  | _, _ => Raise TypeError
  end.
Proof.
  destruct b as [i [p|o] ts [|x txs] pr];
    unfold Block.json_dumps, Block.data, block_text, Json.dumps;
    try reflexivity.
  dumps_normal_form.
Qed.

Lemma slot_text_app_inj (a a' : slot) (r r' : string) :
  a <> Unset -> a' <> Unset ->
  slot_text a ++ r = slot_text a' ++ r' ->
  (a = PyNone <-> a' = PyNone) /\ slot_units a = slot_units a' /\ r = r'.
Proof.
  intros Ha Ha' H.
  destruct a as [| |s], a' as [| |s']; try contradiction; simpl in H.
  - injection H as H. repeat split; auto.
  - discriminate H.
  - discriminate H.
  - change (Json.encode_string s ++ r = Json.encode_string s' ++ r') in H.
    apply encode_string_app_inj in H as [E ->].
    repeat split; try discriminate. cbn [slot_units]. now rewrite E.
Qed.


Lemma transaction_text_inj (a v a' v' : slot) (c e c' e' : pystr) :
  a <> Unset -> v <> Unset -> a' <> Unset -> v' <> Unset ->
  transaction_text a v c e = transaction_text a' v' c' e' ->
  ((a = PyNone <-> a' = PyNone) /\ slot_units a = slot_units a') /\
  ((v = PyNone <-> v' = PyNone) /\ slot_units v = slot_units v') /\
  Utf16.units c = Utf16.units c' /\ Utf16.units e = Utf16.units e'.
Proof.
  intros Ha Hv Ha' Hv' H. unfold transaction_text in H.
  do 2 apply append_inv_head in H.
  apply slot_text_app_inj in H as (Hna & Hua & H); try assumption.
  do 2 apply append_inv_head in H.
  apply encode_string_app_inj in H as [Hc H].
  do 2 apply append_inv_head in H.
  apply encode_string_app_inj in H as [He H].
  do 2 apply append_inv_head in H.
  apply slot_text_app_inj in H as (Hnv & Huv & _); try assumption.
  repeat split; try assumption; try apply Hna; try apply Hnv.
Qed.


(** ** Blocks *)

Lemma block_hash_eq (b : Block.t) :
  Block.hash b =
  match Block.previous_hash b, Block.transactions b with
  | Block.HashStr p, [] => Raise SyntaxError
  | _, _ => Raise TypeError
  end.
Proof.
  unfold Block.hash. fold (Block.json_dumps b). rewrite block_json_dumps.
  destruct (Block.previous_hash b), (Block.transactions b); reflexivity.
Qed.

(** C5. The successor built by [next] has [index + 1], the given
    transactions and proof 0, but its [previous_hash] is the bound method
    [self.hash] of the predecessor, not the string [self.hash()] returns:
    it equals no string, and the successor itself cannot be hashed. *)
Theorem next_links_to_the_method_not_the_hash
    (now : pystr) (b : Block.t) (txs : list Transaction.t) :
  let b2 := Block.next now b txs in
  Block.index b2 = Block.index b + 1 /\
  Block.transactions b2 = txs /\
  Block.proof b2 = 0 /\
  Block.timestamp b2 = now /\
  Block.previous_hash b2 = Block.BoundHash b /\
  (forall h : pystr, Block.previous_hash b2 <> Block.HashStr h) /\
  Block.hash b2 = Raise TypeError.
Proof.
  cbv zeta. rewrite block_hash_eq.
  repeat split; try reflexivity; intros h; discriminate.
Qed.

(** The failing input of C5: the successor of the genesis block. *)
Example next_of_genesis :
  Block.previous_hash
    (Block.next (Unicode.lit "2024-01-01 10:00:00.000000") Block.genesis [])
    = Block.BoundHash Block.genesis /\
  Block.hash
    (Block.next (Unicode.lit "2024-01-01 10:00:00.000000") Block.genesis [])
    = Raise TypeError.
Proof. split; reflexivity. Qed.

(** C9. [Block()] assigns the five fixed values (index 0, a
    [previous_hash] of 64 characters ['0'], the fixed timestamp, no
    transactions, proof 0), but [hash] gives no value to compare: on the
    genesis block lines 85 to 94 encode the fields and line 97, which is
    to return the digest, is a syntax error.  [hash] returns on no block. *)
Theorem genesis_hash_is_not_returned :
  Block.hash Block.genesis = Raise SyntaxError /\
  (forall (b : Block.t) (h : string), Block.hash b <> Ok h) /\
  Block.fields Block.genesis
    = (0, Block.HashStr (Unicode.lit
            "0000000000000000000000000000000000000000000000000000000000000000"),
       Unicode.lit "2023-11-24 00:00:00.000000", [], 0) /\
  List.length (Unicode.lit (Block.str_mul "0" 64)) = 64%nat /\
  (exists text : string, Block.json_dumps Block.genesis = Ok text).
Proof.
  split; [reflexivity|].
  split.
  { intros b h. rewrite block_hash_eq.
    destruct (Block.previous_hash b), (Block.transactions b); discriminate. }
  split; [reflexivity|].
  split; [reflexivity|].
  rewrite block_json_dumps. eexists. reflexivity.
Qed.

(** ** Mining *)



(** The failing input of C10: [Block().next([]).mine(4)]. *)
Example mine_4_on_block_one :
  Mining.mine 1 4 Run.block_one = Some (Raise TypeError, Run.block_one) /\
  Block.previous_hash Run.block_one = Block.BoundHash Block.genesis.
Proof. split; reflexivity. Qed.

(** ** The methods of a transaction, unfolded *)

Section TransactionMethods.
Context {S : SignatureScheme}.

Lemma sign_eq (sk : SigningKey) (x : Transaction.t) :
  Transaction.sign sk x =
  match Transaction.json_dumps x with
  | Ok m => (Ok tt, State.signed_with sk m x)
  | Raise e => (Raise e, x)
  end.
Proof.
  unfold Transaction.sign, mbind, mread, mwrite.
  destruct (Transaction.json_dumps x) as [m|e]; [|reflexivity].
  cbn [Transaction.vk Transaction.set_vk getattr rbind encode_attr].
  rewrite encode_lit. reflexivity.
Qed.

Lemma bytes_fromhex_eq (a : slot) :
  match Transaction.bytes_fromhex a with
  | Ok bs => State.hex_bytes a = Some bs
  | Raise _ => State.hex_bytes a = None
  end.
Proof.
  unfold Transaction.bytes_fromhex, State.hex_bytes.
  destruct a as [| |s]; try reflexivity.
  destruct (Unicode.to_text s) as [text|]; [|reflexivity].
  destruct (Hex.fromhex text); reflexivity.
Qed.

Lemma verify_eq (x : Transaction.t) :
  Transaction.verify x = (Ok (State.signature_matches x), x).
Proof.
  unfold Transaction.verify, Transaction.verify_try, mread,
    State.signature_matches, State.stored_key, State.stored_signature.
  f_equal.
  destruct (Transaction.vk x) as [| |v]; try reflexivity.
  cbn [getattr rbind].
  pose proof (bytes_fromhex_eq (PyStr v)) as Hv.
  destruct (Transaction.bytes_fromhex (PyStr v)) as [pem|e];
    rewrite Hv; [|reflexivity].
  cbn [rbind]. destruct (from_pem pem) as [k|]; [|reflexivity].
  cbn [rbind]. destruct (Transaction.signature x) as [| |sg]; try reflexivity.
  cbn [getattr rbind].
  pose proof (bytes_fromhex_eq (PyStr sg)) as Hs.
  destruct (Transaction.bytes_fromhex (PyStr sg)) as [bs|e];
    rewrite Hs; [|reflexivity].
  cbn [rbind]. destruct (Transaction.json_dumps x) as [m|e]; [|reflexivity].
  cbn [rbind]. destruct (vk_verify k bs (encode m)); reflexivity.
Qed.

Lemma hash_keeps_state (x : Transaction.t) : snd (Transaction.hash x) = x.
Proof. reflexivity. Qed.

Lemma hex_bytes_lit (bs : list byte) :
  State.hex_bytes (PyStr (Unicode.lit (Hex.hex bs))) = Some bs.
Proof.
  unfold State.hex_bytes. now rewrite to_text_lit, fromhex_hex.
Qed.

Lemma signed_with_is_fully_signed (sk : SigningKey) (m : string)
    (x : Transaction.t) :
  State.is_fully_signed (State.signed_with sk m x) = true.
Proof.
  unfold State.is_fully_signed.
  cbn [State.signed_with Transaction.set_author Transaction.set_vk
       Transaction.set_signature Transaction.author Transaction.vk
       Transaction.signature].
  rewrite encode_lit. apply unicode_eqb_refl.
Qed.

Lemma sign_keeps_well_formed (sk : SigningKey) (x : Transaction.t) :
  State.well_formed x = true -> State.well_formed (snd (Transaction.sign sk x)) = true.
Proof.
  unfold State.well_formed. intros H. rewrite sign_eq.
  destruct (Transaction.json_dumps x) as [m|e]; [|exact H].
  cbn [snd]. rewrite signed_with_is_fully_signed. apply orb_true_r.
Qed.

Lemma step_keeps_well_formed (x : Transaction.t) (o : State.op) :
  State.well_formed x = true -> State.well_formed (State.step x o) = true.
Proof.
  destruct o as [sk| |]; cbn [State.step].
  - apply sign_keeps_well_formed.
  - now rewrite verify_eq.
  - now rewrite hash_keeps_state.
Qed.

(** C4. Whatever calls of [sign], [verify] and [hash] follow the
    construction of a transaction, in any order and whether they return or
    raise, the transaction is either unsigned ([author], [vk] and
    [signature] all unassigned) or fully signed (the three hold strings and
    [author] is the SHA-256 of [vk]). *)
Theorem transaction_unsigned_or_fully_signed
    (now container_id event : pystr) (info : list (pystr * pystr))
    (harbor ship date : option pystr) (ops : list State.op) :
  let x := State.run ops
             (Transaction.init now container_id event info harbor ship date) in
  State.is_unsigned x || State.is_fully_signed x = true.
Proof.
  cbv zeta. fold (State.well_formed
    (State.run ops
       (Transaction.init now container_id event info harbor ship date))).
  assert (H0 : State.well_formed
    (Transaction.init now container_id event info harbor ship date) = true)
    by reflexivity.
  revert H0.
  generalize (Transaction.init now container_id event info harbor ship date).
  unfold State.run. induction ops as [|o ops IH]; intros x Hx; [exact Hx|].
  cbn [fold_left]. apply IH. now apply step_keeps_well_formed.
Qed.


End TransactionMethods.

(** ** Signing *)

Section SigningProperties.
Context {S : SignatureScheme}.

(** C1. A transaction as [Transaction(...)] builds it cannot be signed:
    [sign] raises [AttributeError] before it assigns anything, because
    [data] reads [author] and [vk], which [__init__] never assigns; and
    [verify] on it returns [False]. *)
Theorem new_transaction_cannot_be_signed
    (sk : SigningKey) (now container_id event : pystr)
    (info : list (pystr * pystr)) (harbor ship date : option pystr) :
  let x := Transaction.init now container_id event info harbor ship date in
  Transaction.sign sk x = (Raise AttributeError, x) /\
  Transaction.verify x = (Ok false, x).
Proof. cbv zeta. rewrite sign_eq, verify_eq. split; reflexivity. Qed.

(** Where [sign] can return, because [author] and [vk] were assigned
    [None] beforehand, the text signed holds them as [null] while [verify]
    re-encodes them as [sign] left them: right after [sign], [verify]
    checks the signature of one text against another. *)
Lemma verify_after_sign_reads_another_text `{!SchemeCorrect S}
    (sk : SigningKey) (x : Transaction.t) :
  Transaction.author x = PyNone -> Transaction.vk x = PyNone ->
  exists (x' : Transaction.t) (m m' : string),
    Transaction.json_dumps x = Ok m /\
    Transaction.sign sk x = (Ok tt, x') /\
    Transaction.json_dumps x' = Ok m' /\
    encode m' <> encode m /\
    Transaction.verify x'
    = (Ok (vk_verify (verifying_key sk) (sk_sign sk (encode m)) (encode m')),
       x').
Proof.
  intros Ha Hv.
  assert (Hm : Transaction.json_dumps x
               = Ok (transaction_text PyNone PyNone
                       (Transaction.container_id x) (Transaction.event x)))
    by (now rewrite transaction_json_dumps, Ha, Hv).
  rewrite sign_eq, Hm.
  eexists; eexists; eexists.
  split; [reflexivity|]. split; [reflexivity|].
  split; [rewrite transaction_json_dumps; reflexivity|].
  split.
  - intros E. apply encode_inj, transaction_text_inj in E
      as ([_ Hn] & _); try discriminate;
      try (specialize (Hn eq_refl); discriminate Hn).
  - rewrite verify_eq. do 2 f_equal.
    unfold State.signature_matches, State.stored_key, State.stored_signature.
    rewrite transaction_json_dumps.
    cbn [State.signed_with Transaction.set_author Transaction.set_vk
         Transaction.set_signature Transaction.author Transaction.vk
         Transaction.signature Transaction.container_id Transaction.event].
    now rewrite !hex_bytes_lit, from_pem_to_pem.
Qed.

(** C2, as amended.  [sign] signs the sorted-key JSON text of the [data]
    mapping as it stands when [sign] is called.  The text fixes the UTF-16
    code units of [container_id] and [event], hence the two strings
    themselves when they hold Unicode scalar values only; it is the same
    for every transaction with the same [container_id], [event], [author]
    and [vk], whatever its [info], [timestamp], [ship], [harbor] and
    [signature]. *)
Theorem sign_signs_the_data_encoding
    (sk : SigningKey) (x : Transaction.t) (m : string)
    (Hm : Transaction.json_dumps x = Ok m) :
  Transaction.sign sk x = (Ok tt, State.signed_with sk m x) /\
  State.signed_message x = Ok (encode m) /\
  Transaction.signature (State.signed_with sk m x)
    = PyStr (Unicode.lit (Hex.hex (sk_sign sk (encode m)))) /\
  (forall y : Transaction.t,
      Transaction.json_dumps y = Ok m ->
      Utf16.units (Transaction.container_id y)
        = Utf16.units (Transaction.container_id x) /\
      Utf16.units (Transaction.event y) = Utf16.units (Transaction.event x)) /\
  (forall y : Transaction.t,
      Unicode.scalars (Transaction.container_id x) = true ->
      Unicode.scalars (Transaction.event x) = true ->
      Unicode.scalars (Transaction.container_id y) = true ->
      Unicode.scalars (Transaction.event y) = true ->
      Transaction.json_dumps y = Ok m ->
      Transaction.container_id y = Transaction.container_id x /\
      Transaction.event y = Transaction.event x) /\
  (forall y : Transaction.t,
      Transaction.container_id y = Transaction.container_id x ->
      Transaction.event y = Transaction.event x ->
      Transaction.author y = Transaction.author x ->
      Transaction.vk y = Transaction.vk x ->
      Transaction.json_dumps y = Ok m).
Proof.
  assert (Hunits : forall y : Transaction.t,
      Transaction.json_dumps y = Ok m ->
      Utf16.units (Transaction.container_id y)
        = Utf16.units (Transaction.container_id x) /\
      Utf16.units (Transaction.event y) = Utf16.units (Transaction.event x)).
  { intros y Hy. rewrite transaction_json_dumps in Hm, Hy.
    destruct (Transaction.author x) eqn:Ea, (Transaction.vk x) eqn:Ev,
             (Transaction.author y) eqn:Ea', (Transaction.vk y) eqn:Ev';
      try discriminate Hm; try discriminate Hy;
      injection Hm as <-; apply Ok_inj in Hy;
      apply transaction_text_inj in Hy as (_ & _ & Hc & He);
      try discriminate; now split. }
  split; [now rewrite sign_eq, Hm|].
  split; [unfold State.signed_message; now rewrite Hm|].
  split; [reflexivity|].
  split; [exact Hunits|].
  split.
  - intros y Hcx Hex Hcy Hey Hy.
    destruct (Hunits y Hy) as [Hc He].
    split; now apply units_inj.
  - intros y Hc He Ha Hv. rewrite transaction_json_dumps in *.
    now rewrite Hc, He, Ha, Hv.
Qed.

(** C7. [hash] on a transaction as [Transaction(...)] builds it raises
    [AttributeError], not [IncompleteTransaction]: it reads [signature],
    which was never assigned.  After a [sign] that returned, [hash] raises
    [AttributeError] as well, on [message], which no method assigns. *)
Theorem hash_raises_AttributeError
    (now container_id event : pystr) (info : list (pystr * pystr))
    (harbor ship date : option pystr) :
  (let x := Transaction.init now container_id event info harbor ship date in
   Transaction.hash x = (Raise AttributeError, x)) /\
  (forall (sk : SigningKey) (x x' : Transaction.t),
      Transaction.message x = Unset ->
      Transaction.sign sk x = (Ok tt, x') ->
      Transaction.hash x' = (Raise AttributeError, x')).
Proof.
  split; [reflexivity|].
  intros sk x x' Hmsg Hs. rewrite sign_eq in Hs.
  destruct (Transaction.json_dumps x) as [m|e] eqn:Hm; [|discriminate Hs].
  injection Hs as <-.
  unfold Transaction.hash, mread. do 2 f_equal.
  rewrite transaction_json_dumps.
  destruct x as [c e ts sh hb inf a v sg ms dt].
  cbn [Transaction.message] in Hmsg. subst ms. reflexivity.
Qed.

(** C8, as amended.  [sign] on a fully signed transaction returns: it signs
    the current [data] text and replaces [signature], [vk] and [author] by
    those of the new key, and the transaction is again fully signed. *)
Theorem sign_again_overwrites (sk : SigningKey) (x : Transaction.t)
    (Hx : State.is_fully_signed x = true) :
  exists m : string,
    Transaction.json_dumps x = Ok m /\
    Transaction.sign sk x = (Ok tt, State.signed_with sk m x) /\
    Transaction.signature (State.signed_with sk m x)
      = PyStr (Unicode.lit (Hex.hex (sk_sign sk (encode m)))) /\
    Transaction.vk (State.signed_with sk m x)
      = PyStr (Unicode.lit (Hex.hex (to_pem (verifying_key sk)))) /\
    Transaction.author (State.signed_with sk m x)
      = PyStr (Unicode.lit
                 (SHA256.hexdigest
                    (encode (Hex.hex (to_pem (verifying_key sk)))))) /\
    State.is_fully_signed (State.signed_with sk m x) = true.
Proof.
  unfold State.is_fully_signed in Hx.
  destruct (Transaction.author x) as [| |a] eqn:Ea; try discriminate Hx.
  destruct (Transaction.vk x) as [| |v] eqn:Ev; try discriminate Hx.
  exists (transaction_text (PyStr a) (PyStr v) (Transaction.container_id x)
            (Transaction.event x)).
  assert (Hm : Transaction.json_dumps x
               = Ok (transaction_text (PyStr a) (PyStr v)
                       (Transaction.container_id x) (Transaction.event x)))
    by (now rewrite transaction_json_dumps, Ea, Ev).
  split; [exact Hm|]. split; [now rewrite sign_eq, Hm|].
  split; [reflexivity|]. split; [reflexivity|]. split; [reflexivity|].
  apply signed_with_is_fully_signed.
Qed.

End SigningProperties.

(** ** The canonical encoding *)




(** [json.dumps] has no rule for a [Transaction] or a bound method: a block
    has an encoding only when it holds neither. *)
Lemma block_encoding_needs_plain_fields (b : Block.t) (s : string) :
  Block.json_dumps b = Ok s ->
  Block.transactions b = [] /\
  exists p : pystr, Block.previous_hash b = Block.HashStr p.
Proof.
  intros Hb. rewrite block_json_dumps in Hb.
  destruct (Block.previous_hash b) as [p|o], (Block.transactions b);
    try discriminate Hb.
  split; [reflexivity | now exists p].
Qed.

(** ** Concrete runs *)

Lemma toy_correct : SchemeCorrect ToyScheme.toy.
Proof.
  split; [reflexivity|].
  intros sk m.
  change ((if list_eq_dec byte_eq_dec (sk ++ m)%list (sk ++ m)%list
           then true else false) = true).
  destruct (list_eq_dec byte_eq_dec (sk ++ m)%list (sk ++ m)%list);
    [reflexivity | contradiction].
Qed.

Lemma unicode_eqb_eq (a b : pystr) : Unicode.eqb a b = true -> a = b.
Proof.
  revert b. induction a as [|x a IH]; intros [|y b] H;
    try discriminate H; [reflexivity|].
  cbn [Unicode.eqb] in H. apply andb_prop in H as [Hx Hab].
  apply N.eqb_eq in Hx. subst y. f_equal. now apply IH.
Qed.

Lemma slot_neq_by_text (a b : pystr) :
  Unicode.eqb a b = false -> PyStr a <> PyStr b.
Proof. intros E [= H]. subst b. now rewrite unicode_eqb_refl in E. Qed.

(** On the transaction of C1's second input, with the scheme of
    [ToyScheme]: [sign] returns and [verify] is [False] right after. *)
Example verify_after_sign_is_false_on_tx_a :
  exists x', Transaction.sign (S := ToyScheme.toy) Run.key_one Run.tx_a = (Ok tt, x') /\
             Transaction.verify (S := ToyScheme.toy) x' = (Ok false, x').
Proof.
  eexists. split; [rewrite sign_eq, transaction_json_dumps; reflexivity|].
  rewrite verify_eq. vm_compute. reflexivity.
Qed.

(** [json.dumps] writes the code point U+1F600 and the pair of surrogates
    U+D83D, U+DE00 with the same twelve characters: two transactions whose
    [container_id] differ so have the same encoding and the same signed
    bytes. *)
Example data_text_joins_surrogate_pairs :
  Transaction.container_id Run.tx_astral <> Transaction.container_id Run.tx_pair /\
  Transaction.json_dumps Run.tx_astral = Transaction.json_dumps Run.tx_pair /\
  State.signed_message Run.tx_astral = State.signed_message Run.tx_pair /\
  (exists s : string, Transaction.json_dumps Run.tx_astral = Ok s) /\
  Unicode.scalars (Transaction.container_id Run.tx_astral) = true /\
  Unicode.scalars (Transaction.container_id Run.tx_pair) = false.
Proof.
  assert (H : Transaction.json_dumps Run.tx_astral
              = Transaction.json_dumps Run.tx_pair)
    by (vm_compute; reflexivity).
  split; [discriminate|]. split; [exact H|].
  split; [unfold State.signed_message; now rewrite H|].
  split; [rewrite transaction_json_dumps; eexists; reflexivity|].
  split; reflexivity.
Qed.


(** C2, as stated, fails: two transactions that differ in [info] alone
    receive the same signature from the same key, and the bytes signed
    change with [vk]. *)
Lemma sign_ignores_info_and_signs_vk :
  Transaction.info Run.tx_a <> Transaction.info Run.tx_no_info /\
  fst (Transaction.sign (S := ToyScheme.toy) Run.key_one Run.tx_a) = Ok tt /\
  State.signed_message Run.tx_a = State.signed_message Run.tx_no_info /\
  Transaction.signature
    (snd (Transaction.sign (S := ToyScheme.toy) Run.key_one Run.tx_a))
  = Transaction.signature
      (snd (Transaction.sign (S := ToyScheme.toy) Run.key_one Run.tx_no_info)) /\
  State.signed_message
    (Transaction.set_vk (PyStr (Unicode.lit "00")) Run.tx_a)
  <> State.signed_message Run.tx_a.
Proof.
  split; [discriminate|].
  split; [vm_compute; reflexivity|].
  split; [reflexivity|].
  split; [vm_compute; reflexivity|].
  vm_compute. discriminate.
Qed.

Lemma sign_signs_the_data_encoding_witness :
  (exists m, Transaction.json_dumps Run.tx_a = Ok m) /\
  fst (Transaction.sign (S := ToyScheme.toy) Run.key_one Run.tx_a) = Ok tt /\
  Transaction.container_id Run.tx_later = Transaction.container_id Run.tx_a.
Proof.
  assert (H : Transaction.json_dumps Run.tx_a
              = Ok (transaction_text PyNone PyNone (Unicode.lit "C1")
                      (Unicode.lit "loaded")))
    by (rewrite transaction_json_dumps; reflexivity).
  assert (H' : Transaction.json_dumps Run.tx_later
               = Ok (transaction_text PyNone PyNone (Unicode.lit "C1")
                       (Unicode.lit "loaded")))
    by (rewrite transaction_json_dumps; reflexivity).
  split; [eexists; exact H|].
  split.
  - rewrite (proj1 (sign_signs_the_data_encoding (S := ToyScheme.toy)
                      Run.key_one Run.tx_a _ H)).
    reflexivity.
  - apply (proj1 (proj2 (proj2 (proj2 (proj2
             (sign_signs_the_data_encoding (S := ToyScheme.toy)
                Run.key_one Run.tx_a _ H))))) Run.tx_later);
      first [exact H' | vm_compute; reflexivity].
Defined.




Lemma hash_raises_AttributeError_witness :
  Transaction.message Run.tx_a = Unset /\
  Transaction.sign (S := ToyScheme.toy) Run.key_one Run.tx_a = (Ok tt, Run.signed_tx) /\
  Transaction.hash Run.signed_tx = (Raise AttributeError, Run.signed_tx).
Proof.
  assert (Hs : Transaction.sign (S := ToyScheme.toy) Run.key_one Run.tx_a = (Ok tt, Run.signed_tx)).
  { unfold Run.signed_tx. rewrite sign_eq, transaction_json_dumps.
    reflexivity. }
  split; [reflexivity|]. split; [exact Hs|].
  exact (proj2 (hash_raises_AttributeError (S := ToyScheme.toy)
                  Run.clock (Unicode.lit "C1") (Unicode.lit "loaded") []
                  None None None)
           Run.key_one Run.tx_a Run.signed_tx eq_refl Hs).
Defined.

(** C8, as stated, fails: signing a fully signed transaction with another
    key returns and replaces the three attributes. *)
Lemma sign_twice_returns :
  State.is_fully_signed Run.signed_tx = true /\
  fst (Transaction.sign (S := ToyScheme.toy) Run.key_two Run.signed_tx) = Ok tt /\
  Transaction.signature (snd (Transaction.sign (S := ToyScheme.toy) Run.key_two Run.signed_tx))
    <> Transaction.signature Run.signed_tx /\
  Transaction.vk (snd (Transaction.sign (S := ToyScheme.toy) Run.key_two Run.signed_tx))
    <> Transaction.vk Run.signed_tx /\
  Transaction.author (snd (Transaction.sign (S := ToyScheme.toy) Run.key_two Run.signed_tx))
    <> Transaction.author Run.signed_tx.
Proof.
  split; [vm_compute; reflexivity|].
  split; [vm_compute; reflexivity|].
  repeat split; vm_compute; apply slot_neq_by_text; vm_compute; reflexivity.
Qed.

Lemma sign_again_overwrites_witness :
  State.is_fully_signed Run.signed_tx = true /\
  exists m : string,
    Transaction.sign (S := ToyScheme.toy) Run.key_two Run.signed_tx
    = (Ok tt, State.signed_with (S := ToyScheme.toy) Run.key_two m Run.signed_tx).
Proof.
  assert (H : State.is_fully_signed Run.signed_tx = true)
    by (vm_compute; reflexivity).
  split; [exact H|].
  destruct (sign_again_overwrites (S := ToyScheme.toy)
              Run.key_two Run.signed_tx H) as (m & _ & Hs & _).
  exists m. exact Hs.
Defined.

(** * More of the code *)

(** ** What [sign] and [verify] do to a transaction *)

Section SignVerify.
Context {S : SignatureScheme}.

Lemma sign_ok_inv (sk : SigningKey) (x x' : Transaction.t) :
  Transaction.sign sk x = (Ok tt, x') ->
  exists m : string,
    Transaction.json_dumps x = Ok m /\ x' = State.signed_with sk m x.
Proof.
  rewrite sign_eq. destruct (Transaction.json_dumps x) as [m|e];
    [|discriminate].
  intros [= <-]. now exists m.
Qed.

Lemma json_dumps_signed_with (sk : SigningKey) (m : string)
    (x : Transaction.t) :
  Transaction.json_dumps (State.signed_with sk m x)
  = Ok (transaction_text
          (PyStr (Unicode.lit
                    (SHA256.hexdigest
                       (encode (Hex.hex (to_pem (verifying_key sk)))))))
          (PyStr (Unicode.lit (Hex.hex (to_pem (verifying_key sk)))))
          (Transaction.container_id x) (Transaction.event x)).
Proof. rewrite transaction_json_dumps. now destruct x. Qed.

(** X1. [sign] assigns [signature], [vk] and [author] and nothing else: the
    eight other attributes are as before, whether it returns or raises.
    It raises exactly when [author] or [vk] was never assigned, always
    [AttributeError], and then the transaction is unchanged. *)
Theorem sign_touches_three_attributes (sk : SigningKey) (x : Transaction.t) :
  let x' := snd (Transaction.sign sk x) in
  (Transaction.container_id x' = Transaction.container_id x /\
   Transaction.event x' = Transaction.event x /\
   Transaction.timestamp x' = Transaction.timestamp x /\
   Transaction.ship x' = Transaction.ship x /\
   Transaction.harbor x' = Transaction.harbor x /\
   Transaction.info x' = Transaction.info x /\
   Transaction.message x' = Transaction.message x /\
   Transaction.date x' = Transaction.date x) /\
  (forall e : exn, fst (Transaction.sign sk x) = Raise e ->
                   e = AttributeError /\ x' = x) /\
  ((exists e : exn, fst (Transaction.sign sk x) = Raise e) <->
   Transaction.author x = Unset \/ Transaction.vk x = Unset).
Proof.
  cbv zeta. rewrite sign_eq, transaction_json_dumps.
  destruct x as [c e ts sh hb inf a v sg ms dt].
  cbn [Transaction.author Transaction.vk].
  destruct a as [| |a], v as [| |v]; cbn [fst snd];
    (split; [repeat split|split; [intros e0 E; try discriminate E;
       injection E as <-; now split|]]);
    (split; [intros [e0 E]; try discriminate E; auto
            | intros [E|E]; try discriminate E; now eexists]).
Qed.

(** X2. What [sign] stores, [verify] decodes back: after a [sign] that
    returned, the key read from [vk] is the verifying key of the signing
    key and the bytes read from [signature] are the signature of the
    encoding that [sign] saw. *)
Theorem sign_stores_what_verify_decodes `{!SchemeCorrect S}
    (sk : SigningKey) (x x' : Transaction.t)
    (Hs : Transaction.sign sk x = (Ok tt, x')) :
  State.stored_key x' = Some (verifying_key sk) /\
  exists m : string,
    Transaction.json_dumps x = Ok m /\
    State.stored_signature x' = Some (sk_sign sk (encode m)).
Proof.
  apply sign_ok_inv in Hs as (m & Hm & ->).
  unfold State.stored_key, State.stored_signature.
  destruct x as [c e ts sh hb inf a v sg ms dt].
  cbn [State.signed_with Transaction.set_author Transaction.set_vk
       Transaction.set_signature Transaction.vk Transaction.signature].
  rewrite !hex_bytes_lit, from_pem_to_pem. split; [reflexivity|].
  now exists m.
Qed.

(** X3. Signing twice with the same key gives a transaction that
    verifies: the second [sign] signs the [author] and [vk] the first one
    stored and stores the same ones again. *)
Theorem sign_twice_with_one_key_verifies `{!SchemeCorrect S}
    (sk : SigningKey) (x x1 : Transaction.t)
    (Hs : Transaction.sign sk x = (Ok tt, x1)) :
  exists x2 : Transaction.t,
    Transaction.sign sk x1 = (Ok tt, x2) /\
    Transaction.verify x2 = (Ok true, x2) /\
    Transaction.vk x2 = Transaction.vk x1 /\
    Transaction.author x2 = Transaction.author x1.
Proof.
  apply sign_ok_inv in Hs as (m & Hm & ->).
  eexists. split.
  { rewrite sign_eq, json_dumps_signed_with. reflexivity. }
  rewrite verify_eq. split; [|split; reflexivity].
  apply (f_equal (fun b : bool => (Ok b, _))).
  unfold State.signature_matches.
  rewrite json_dumps_signed_with.
  unfold State.stored_key, State.stored_signature.
  destruct x as [c e ts sh hb inf a v sg ms dt].
  cbn [State.signed_with Transaction.set_author Transaction.set_vk
       Transaction.set_signature Transaction.vk Transaction.signature
       Transaction.container_id Transaction.event].
  rewrite !hex_bytes_lit, from_pem_to_pem. apply verify_sign.
Qed.

(** X5. [verify] reads [container_id], [event], [author], [vk] and
    [signature] only: two transactions that agree on these get the same
    answer, whatever their [timestamp], [ship], [harbor], [info],
    [message] and [date]. *)
Theorem verify_reads_five_attributes (x y : Transaction.t)
    (Hc : Transaction.container_id x = Transaction.container_id y)
    (He : Transaction.event x = Transaction.event y)
    (Ha : Transaction.author x = Transaction.author y)
    (Hv : Transaction.vk x = Transaction.vk y)
    (Hg : Transaction.signature x = Transaction.signature y) :
  fst (Transaction.verify x) = fst (Transaction.verify y).
Proof.
  rewrite !verify_eq. cbn [fst]. f_equal.
  unfold State.signature_matches, State.stored_key, State.stored_signature.
  rewrite !transaction_json_dumps. now rewrite Hc, He, Ha, Hv, Hg.
Qed.

End SignVerify.

(** ** [Transaction.hash] *)

Lemma hash_eq (x : Transaction.t) :
  fst (Transaction.hash x) =
  match Transaction.signature x, Transaction.vk x with
  | Unset, _ => Raise AttributeError
  | PyNone, _ => Raise IncompleteTransaction
  | PyStr _, Unset => Raise AttributeError
  | PyStr _, PyNone => Raise IncompleteTransaction
  | PyStr sg, PyStr v =>
      match Transaction.author x, Transaction.message x, Transaction.date x with
      | Unset, _, _ | _, Unset, _ | _, _, Unset => Raise AttributeError
      | a, ms, dt =>
          encoded <- Unicode.encode
                       (Unicode.lit
                          (transaction_text a (PyStr v)
                             (Transaction.container_id x)
                             (Transaction.event x))
                        ++ sg ++ v ++ str ms ++ str dt ++ str a)%list ;;
          Ok (SHA256.hexdigest encoded)
      end
  end.
Proof.
  unfold Transaction.hash, mread. cbn [fst].
  rewrite transaction_json_dumps.
  destruct (Transaction.signature x) as [| |sg]; try reflexivity.
  destruct (Transaction.vk x) as [| |v]; try reflexivity.
  destruct (Transaction.author x) as [| |a]; try reflexivity;
    destruct (Transaction.message x) as [| |ms]; try reflexivity;
    destruct (Transaction.date x) as [| |dt]; reflexivity.
Qed.

(** What line 133 does with the joined string: the text of [json_dumps]
    holds ASCII characters only, so [encode] succeeds exactly when the
    rest holds no surrogate. *)
Lemma digest_outcome (text : string) (s : pystr) :
  if Unicode.no_surrogate s
  then exists bs : list byte,
         (encoded <- Unicode.encode (Unicode.lit text ++ s)%list ;;
          Ok (SHA256.hexdigest encoded)) = Ok (SHA256.hexdigest bs)
  else (encoded <- Unicode.encode (Unicode.lit text ++ s)%list ;;
        Ok (SHA256.hexdigest encoded)) = Raise UnicodeEncodeError.
Proof.
  pose proof (encode_outcome (Unicode.lit text ++ s)%list) as H.
  rewrite no_surrogate_app, no_surrogate_lit in H. cbn [andb] in H.
  destruct (Unicode.no_surrogate s).
  - destruct H as [bs ->]. now exists bs.
  - now rewrite H.
Qed.

Lemma hash_cases (x : Transaction.t) :
  match Transaction.signature x, Transaction.vk x with
  | Unset, _ => fst (Transaction.hash x) = Raise AttributeError
  | PyNone, _ => fst (Transaction.hash x) = Raise IncompleteTransaction
  | PyStr _, Unset => fst (Transaction.hash x) = Raise AttributeError
  | PyStr _, PyNone => fst (Transaction.hash x) = Raise IncompleteTransaction
  | PyStr _, PyStr _ =>
      if State.is_unset (Transaction.author x)
         || State.is_unset (Transaction.message x)
         || State.is_unset (Transaction.date x)
      then fst (Transaction.hash x) = Raise AttributeError
      else if Unicode.no_surrogate
                (str (Transaction.signature x) ++ str (Transaction.vk x) ++
                 str (Transaction.message x) ++ str (Transaction.date x) ++
                 str (Transaction.author x))%list
      then exists bs : list byte,
             fst (Transaction.hash x) = Ok (SHA256.hexdigest bs)
      else fst (Transaction.hash x) = Raise UnicodeEncodeError
  end.
Proof.
  rewrite hash_eq.
  destruct (Transaction.signature x) as [| |sg]; try reflexivity.
  destruct (Transaction.vk x) as [| |v]; try reflexivity.
  destruct (Transaction.author x) as [| |a]; try reflexivity;
    destruct (Transaction.message x) as [| |ms]; try reflexivity;
    destruct (Transaction.date x) as [| |dt]; try reflexivity;
    cbn [State.is_unset orb str]; cbv beta iota; apply digest_outcome.
Qed.

(** X6. The outcomes of [hash].  It raises [IncompleteTransaction] exactly
    when [signature] holds [None], or [signature] holds a string and [vk]
    holds [None].  It returns exactly when [signature] and [vk] hold
    strings, [author], [message] and [date] were assigned, and none of the
    five holds a surrogate code point; what it returns has 64 characters.
    With a surrogate in one of the five it raises [UnicodeEncodeError], on
    line 133.  It never changes the transaction. *)
Theorem hash_outcomes (x : Transaction.t) :
  (fst (Transaction.hash x) = Raise IncompleteTransaction <->
   Transaction.signature x = PyNone \/
   ((exists sg, Transaction.signature x = PyStr sg) /\
    Transaction.vk x = PyNone)) /\
  ((exists h, fst (Transaction.hash x) = Ok h) <->
   (exists sg, Transaction.signature x = PyStr sg) /\
   (exists v, Transaction.vk x = PyStr v) /\
   Transaction.author x <> Unset /\ Transaction.message x <> Unset /\
   Transaction.date x <> Unset /\
   Unicode.no_surrogate
     (str (Transaction.signature x) ++ str (Transaction.vk x) ++
      str (Transaction.message x) ++ str (Transaction.date x) ++
      str (Transaction.author x))%list = true) /\
  (fst (Transaction.hash x) = Raise UnicodeEncodeError <->
   (exists sg, Transaction.signature x = PyStr sg) /\
   (exists v, Transaction.vk x = PyStr v) /\
   Transaction.author x <> Unset /\ Transaction.message x <> Unset /\
   Transaction.date x <> Unset /\
   Unicode.no_surrogate
     (str (Transaction.signature x) ++ str (Transaction.vk x) ++
      str (Transaction.message x) ++ str (Transaction.date x) ++
      str (Transaction.author x))%list = false) /\
  (forall h, fst (Transaction.hash x) = Ok h -> String.length h = 64%nat) /\
  snd (Transaction.hash x) = x.
Proof.
  assert (Hsnd : snd (Transaction.hash x) = x) by reflexivity.
  pose proof (hash_cases x) as H. revert H.
  generalize (fst (Transaction.hash x)) as r.
  destruct (Transaction.signature x) as [| |sg],
           (Transaction.vk x) as [| |v],
           (Transaction.author x) as [| |a],
           (Transaction.message x) as [| |ms],
           (Transaction.date x) as [| |dt];
    cbn [State.is_unset orb]; cbv beta iota;
    destruct (Unicode.no_surrogate _) eqn:E;
    intros r H;
    match type of H with
    | ex _ => destruct H as [bs ->]
    | _ => subst r
    end;
    (split; [|split; [|split; [|split; [|exact Hsnd]]]]).
  all: try (split;
    [ intros E0; first [ discriminate E0 | now left
                       | right; split; [now eexists | reflexivity] ]
    | intros [E0|[[? E0] E1]];
      first [ discriminate E0 | discriminate E1 | reflexivity ] ]).
  all: try (intros h E0;
    first [ discriminate E0
          | apply Ok_inj in E0; subst h; apply hexdigest_length ]).
  all: try (split;
    [ intros [h E0];
      first [ discriminate E0
            | repeat split; first [now eexists | discriminate | reflexivity] ]
    | intros ([? E0] & [? E1] & Ha & Hm & Hd & Hn);
      first [ discriminate E0 | discriminate E1 | contradiction
            | discriminate Hn | now eexists ] ]).
  all: split;
    [ intros E0;
      first [ discriminate E0
            | repeat split; first [now eexists | discriminate | reflexivity] ]
    | intros ([? E0] & [? E1] & Ha & Hm & Hd & Hn);
      first [ discriminate E0 | discriminate E1 | contradiction
            | discriminate Hn | reflexivity ] ].
Qed.

(** X7. [hash] joins its six parts without a separator and leaves
    [timestamp], [ship], [harbor] and [info] out: two transactions with the
    same [container_id], [event], [author], [vk] and [signature] whose
    [message] followed by [date] read the same have the same hash. *)
Theorem hash_joins_message_and_date (x y : Transaction.t)
    (Hc : Transaction.container_id x = Transaction.container_id y)
    (He : Transaction.event x = Transaction.event y)
    (Ha : Transaction.author x = Transaction.author y)
    (Hv : Transaction.vk x = Transaction.vk y)
    (Hg : Transaction.signature x = Transaction.signature y)
    (Hmx : Transaction.message x <> Unset) (Hdx : Transaction.date x <> Unset)
    (Hmy : Transaction.message y <> Unset) (Hdy : Transaction.date y <> Unset)
    (Hjoin : (str (Transaction.message x) ++ str (Transaction.date x)
              = str (Transaction.message y) ++ str (Transaction.date y))%list) :
  fst (Transaction.hash x) = fst (Transaction.hash y).
Proof.
  rewrite !hash_eq, <- Hc, <- He, <- Ha, <- Hv, <- Hg.
  destruct (Transaction.signature x) as [| |sg]; try reflexivity.
  destruct (Transaction.vk x) as [| |v]; try reflexivity.
  destruct (Transaction.message x) as [| |mx]; try contradiction;
    destruct (Transaction.date x) as [| |dx]; try contradiction;
    destruct (Transaction.message y) as [| |my]; try contradiction;
    destruct (Transaction.date y) as [| |dy]; try contradiction;
    (destruct (Transaction.author x) as [| |a]; [reflexivity| |]);
    cbv beta iota zeta;
    apply (f_equal (fun t => encoded <- Unicode.encode t ;;
                             Ok (SHA256.hexdigest encoded)));
    do 3 apply (f_equal (app _));
    rewrite !app_assoc; apply (f_equal (fun t => (t ++ _)%list));
    exact Hjoin.
Qed.

Lemma hash_joins_message_and_date_witness :
  let x := Transaction.mk (Unicode.lit "C1") (Unicode.lit "loaded") Run.clock
             None None [] (PyStr (Unicode.lit "aa")) (PyStr (Unicode.lit "bb"))
             (PyStr (Unicode.lit "cc"))
             (PyStr (Unicode.lit "ab")) (PyStr (Unicode.lit "c")) in
  let y := Transaction.mk (Unicode.lit "C1") (Unicode.lit "loaded") Run.later
             None None [] (PyStr (Unicode.lit "aa")) (PyStr (Unicode.lit "bb"))
             (PyStr (Unicode.lit "cc"))
             (PyStr (Unicode.lit "a")) (PyStr (Unicode.lit "bc")) in
  Transaction.message x <> Transaction.message y /\
  fst (Transaction.hash x) = fst (Transaction.hash y).
Proof.
  cbv zeta. split.
  { intros E. vm_compute in E. discriminate E. }
  apply hash_joins_message_and_date; try reflexivity; discriminate.
Defined.

(** ** Transactions as the constructor builds them *)

Section Constructed.
Context {S : SignatureScheme}.

Lemma step_on_unsigned (x : Transaction.t) (o : State.op) :
  Transaction.author x = Unset -> State.step x o = x.
Proof.
  intros Ha. destruct o as [sk| |]; cbn [State.step].
  - rewrite sign_eq, transaction_json_dumps, Ha. reflexivity.
  - now rewrite verify_eq.
  - apply hash_keeps_state.
Qed.

Lemma run_on_constructed
    (now container_id event : pystr) (info : list (pystr * pystr))
    (harbor ship date : option pystr) (ops : list State.op) :
  State.run ops
    (Transaction.init now container_id event info harbor ship date)
  = Transaction.init now container_id event info harbor ship date.
Proof.
  unfold State.run. induction ops as [|o ops IH]; [reflexivity|].
  cbn [fold_left]. rewrite step_on_unsigned by reflexivity. exact IH.
Qed.

(** X8. No sequence of [sign], [verify] and [hash] calls changes a
    transaction built by the constructor: it stays as built, with [author],
    [vk], [signature], [message] and [date] unassigned, and a further
    [sign] raises [AttributeError]. *)
Theorem constructed_transaction_never_changes
    (now container_id event : pystr) (info : list (pystr * pystr))
    (harbor ship date : option pystr) (ops : list State.op)
    (sk : SigningKey) :
  let x0 := Transaction.init now container_id event info harbor ship date in
  let x := State.run ops x0 in
  x = x0 /\
  Transaction.author x = Unset /\ Transaction.vk x = Unset /\
  Transaction.signature x = Unset /\ Transaction.message x = Unset /\
  Transaction.date x = Unset /\
  Transaction.sign sk x = (Raise AttributeError, x).
Proof.
  cbv zeta. rewrite run_on_constructed, sign_eq. repeat split.
Qed.

(** X9. [__str__] returns exactly when [message], [date], [author], [vk]
    and [signature] were all assigned, and otherwise raises
    [AttributeError]; on a transaction built by the constructor, whatever
    was called on it since, it raises [AttributeError]. *)
Theorem str_needs_five_attributes (x : Transaction.t)
    (now container_id event : pystr) (info : list (pystr * pystr))
    (harbor ship date : option pystr) (ops : list State.op) :
  ((exists s, Ordering.__str__ x = Ok s) <->
   Transaction.message x <> Unset /\ Transaction.date x <> Unset /\
   Transaction.author x <> Unset /\ Transaction.vk x <> Unset /\
   Transaction.signature x <> Unset) /\
  (forall e, Ordering.__str__ x = Raise e -> e = AttributeError) /\
  Ordering.__str__
    (State.run ops
       (Transaction.init now container_id event info harbor ship date))
  = Raise AttributeError.
Proof.
  split; [|split].
  - unfold Ordering.__str__.
    destruct (Transaction.message x), (Transaction.date x),
      (Transaction.author x), (Transaction.vk x), (Transaction.signature x);
      cbn [getattr rbind];
      (split;
       [ intros [? E]; first [discriminate E | repeat split; discriminate]
       | intros (H1 & H2 & H3 & H4 & H5);
         first [contradiction | now eexists] ]).
  - unfold Ordering.__str__. intros e.
    destruct (Transaction.message x), (Transaction.date x),
      (Transaction.author x), (Transaction.vk x), (Transaction.signature x);
      cbn [getattr rbind]; intros E;
      first [discriminate E | now injection E].
  - rewrite run_on_constructed. reflexivity.
Qed.

End Constructed.

(** ** [Transaction.__lt__] *)

Lemma hexdigest_truthy (msg : list byte) :
  Ordering.truthy (SHA256.hexdigest msg) = true.
Proof.
  pose proof (hexdigest_length msg) as H.
  destruct (SHA256.hexdigest msg); [discriminate H | reflexivity].
Qed.

Lemma lt_eq (x y : Transaction.t) :
  Ordering.__lt__ x y =
  (mx <- Transaction.json_dumps x ;;
   my <- Transaction.json_dumps y ;;
   Ok (String.ltb (SHA256.hexdigest (encode mx))
                  (SHA256.hexdigest (encode my)))).
Proof.
  unfold Ordering.__lt__.
  destruct (Transaction.json_dumps x) as [mx|e]; [|reflexivity].
  cbn [rbind]. destruct (Transaction.json_dumps y) as [my|e]; [|reflexivity].
  cbn [rbind]. cbv zeta. now rewrite !hexdigest_truthy.
Qed.

Lemma string_ltb_irrefl (a : string) : String.ltb a a = false.
Proof.
  unfold String.ltb. pose proof (String.compare_antisym a a) as H.
  destruct (String.compare a a); try reflexivity; discriminate H.
Qed.

Lemma string_ltb_asym (a b : string) :
  String.ltb a b = true -> String.ltb b a = false.
Proof.
  unfold String.ltb. rewrite (String.compare_antisym a b).
  destruct (String.compare b a); cbn; intros H; try discriminate H;
    reflexivity.
Qed.

Lemma string_ltb_trans (a b c : string) :
  String.ltb a b = true -> String.ltb b c = true -> String.ltb a c = true.
Proof.
  unfold String.ltb. intros Hab Hbc.
  destruct (String.compare a b) eqn:Eab; try discriminate Hab.
  destruct (String.compare b c) eqn:Ebc; try discriminate Hbc.
  assert (Hac : String.compare a c = Lt).
  { apply OrderedTypeEx.String_as_OT.cmp_lt.
    eapply OrderedTypeEx.String_as_OT.lt_trans;
      apply OrderedTypeEx.String_as_OT.cmp_lt; eassumption. }
  now rewrite Hac.
Qed.

(** X10. [__lt__] orders two transactions by the SHA-256 of their
    encodings and never by date: the digests are never empty, so the
    branch that compares [date] is not taken and [date] is not read.  It
    raises, always [AttributeError], exactly when [author] or [vk] of
    either transaction was never assigned. *)
Theorem lt_compares_digests_never_dates (x y : Transaction.t) :
  (forall mx my : string,
      Transaction.json_dumps x = Ok mx ->
      Transaction.json_dumps y = Ok my ->
      Ordering.__lt__ x y
      = Ok (String.ltb (SHA256.hexdigest (encode mx))
                       (SHA256.hexdigest (encode my)))) /\
  (forall e, Ordering.__lt__ x y = Raise e -> e = AttributeError) /\
  ((exists e, Ordering.__lt__ x y = Raise e) <->
   Transaction.author x = Unset \/ Transaction.vk x = Unset \/
   Transaction.author y = Unset \/ Transaction.vk y = Unset).
Proof.
  rewrite lt_eq. split; [|split].
  - intros mx my -> ->. reflexivity.
  - intros e. rewrite !transaction_json_dumps.
    destruct (Transaction.author x), (Transaction.vk x),
      (Transaction.author y), (Transaction.vk y);
      cbn [rbind]; intros E; first [discriminate E | now injection E].
  - rewrite !transaction_json_dumps.
    destruct (Transaction.author x), (Transaction.vk x),
      (Transaction.author y), (Transaction.vk y); cbn [rbind];
      (split;
       [ intros [e E]; first [discriminate E | auto]
       | intros [E|[E|[E|E]]]; first [discriminate E | now eexists] ]).
Qed.

Lemma lt_compares_digests_never_dates_witness :
  Transaction.date Run.tx_a = Unset /\
  exists b : bool, Ordering.__lt__ Run.tx_a Run.tx_later = Ok b.
Proof.
  split; [reflexivity|]. eexists.
  apply (proj1 (lt_compares_digests_never_dates Run.tx_a Run.tx_later));
    rewrite transaction_json_dumps; reflexivity.
Defined.

(** X11. Where it returns, [__lt__] is a strict order: no transaction is
    below one with the same [container_id], [event], [author] and [vk]
    (itself included, and whatever the timestamps), it never holds both
    ways, and it is transitive. *)
Theorem lt_is_a_strict_order (x y z : Transaction.t) :
  (Transaction.container_id x = Transaction.container_id y ->
   Transaction.event x = Transaction.event y ->
   Transaction.author x = Transaction.author y ->
   Transaction.vk x = Transaction.vk y ->
   forall b, Ordering.__lt__ x y = Ok b -> b = false) /\
  (Ordering.__lt__ x y = Ok true -> Ordering.__lt__ y x = Ok false) /\
  (Ordering.__lt__ x y = Ok true -> Ordering.__lt__ y z = Ok true ->
   Ordering.__lt__ x z = Ok true).
Proof.
  rewrite !lt_eq. split; [|split].
  - intros Hc He Ha Hv b. rewrite !transaction_json_dumps.
    rewrite <- Hc, <- He, <- Ha, <- Hv.
    destruct (Transaction.author x), (Transaction.vk x); cbn [rbind];
      intros E; try discriminate E; apply Ok_inj in E; subst b;
      apply string_ltb_irrefl.
  - destruct (Transaction.json_dumps x) as [mx|ex]; [|discriminate].
    destruct (Transaction.json_dumps y) as [my|ey]; [|discriminate].
    cbn [rbind]. intros E. apply Ok_inj in E. f_equal.
    now apply string_ltb_asym.
  - destruct (Transaction.json_dumps x) as [mx|ex]; [|discriminate].
    destruct (Transaction.json_dumps y) as [my|ey]; [|discriminate].
    destruct (Transaction.json_dumps z) as [mz|ez]; [|discriminate].
    cbn [rbind]. intros E1 E2. apply Ok_inj in E1, E2. f_equal.
    eapply string_ltb_trans; eassumption.
Qed.

Lemma lt_is_a_strict_order_witness :
  Transaction.timestamp Run.tx_a <> Transaction.timestamp Run.tx_later /\
  Ordering.__lt__ Run.tx_a Run.tx_later = Ok false.
Proof.
  split.
  { intros E. vm_compute in E. discriminate E. }
  assert (H : exists b, Ordering.__lt__ Run.tx_a Run.tx_later = Ok b)
    by (rewrite lt_eq, !transaction_json_dumps; eexists; reflexivity).
  destruct H as [b Hb]. rewrite Hb. f_equal.
  exact (proj1 (lt_is_a_strict_order Run.tx_a Run.tx_later Run.tx_a)
           eq_refl eq_refl eq_refl eq_refl b Hb).
Defined.

(** ** [Block.hash] and chains of [next] *)


Lemma next_index (now : pystr) (b : Block.t) (txs : list Transaction.t) :
  Block.index (Block.next now b txs) = Block.index b + 1.
Proof. reflexivity. Qed.

Lemma extend_snoc (b : Block.t) (steps : list (pystr * list Transaction.t))
    (step : pystr * list Transaction.t) :
  Chain.extend b (steps ++ [step])%list
  = Block.next (fst step) (Chain.extend b steps) (snd step).
Proof. unfold Chain.extend. now rewrite fold_left_app. Qed.

(** X13. Along [b.next(...).next(...)...], the index grows by one at each
    step and each [previous_hash] is bound to the block before: after [n]
    steps the index is that of [b] plus [n], and walking back [n] links
    from the last block reaches [b].  After at least one step the last
    block has proof 0 and cannot be hashed. *)
Theorem chain_of_next (b : Block.t)
    (steps : list (pystr * list Transaction.t)) :
  Block.index (Chain.extend b steps)
    = Block.index b + Z.of_nat (List.length steps) /\
  Chain.back (List.length steps) (Chain.extend b steps) = Some b /\
  (steps <> [] ->
   Block.proof (Chain.extend b steps) = 0 /\
   Block.hash (Chain.extend b steps) = Raise TypeError).
Proof.
  induction steps as [|step steps IH] using rev_ind.
  - cbn [Chain.extend fold_left List.length Chain.back Z.of_nat].
    rewrite Z.add_0_r. repeat split; intros; now contradiction.
  - destruct IH as (Hi & Hb & _).
    rewrite extend_snoc, length_app, Nat.add_comm.
    cbn [List.length Nat.add].
    split; [rewrite next_index, Hi; lia|].
    split; [exact Hb|].
    intros _. split; [reflexivity|].
    rewrite block_hash_eq. reflexivity.
Qed.

Lemma chain_of_next_witness :
  let steps := [(Run.clock, [Run.tx_a]); (Run.later, [])] in
  steps <> [] /\
  Block.index (Chain.extend Block.genesis steps) = 2 /\
  Block.hash (Chain.extend Block.genesis steps) = Raise TypeError.
Proof.
  cbv zeta. split; [discriminate|].
  split.
  - exact (proj1 (chain_of_next Block.genesis _)).
  - apply (proj2 (proj2 (chain_of_next Block.genesis _))). discriminate.
Defined.

(** ** [Block.__init__] with a dictionary *)

(** The two models of a block agree: the attributes of a [Block.t] give
    the same encoding and the same outcome of [hash], and [Block()] has the
    attributes of [Block.genesis]. *)
Lemma block_object_agrees (b : Block.t) :
  BlockObject.json_dumps (BlockObject.of_block b) = Block.json_dumps b /\
  BlockObject.hash (BlockObject.of_block b) = Block.hash b /\
  BlockObject.__init__ None = Ok (BlockObject.of_block Block.genesis).
Proof. repeat split. Qed.

(** X14. A block cannot be rebuilt from its own [data]: the dictionary
    [data] returns has the key [transactions], [__init__] requires the key
    [transaction], and raises [InvalidBlock]. *)
Theorem init_rejects_data_of_a_block (b : Block.t) (o : BlockObject.t) :
  BlockObject.__init__ (Some (BlockObject.Dict (Block.data b)))
    = Raise InvalidBlock /\
  (forall d : Json.dict,
      BlockObject.data o = Ok d ->
      BlockObject.__init__ (Some (BlockObject.Dict d)) = Raise InvalidBlock).
Proof.
  split; [reflexivity|].
  intros d. unfold BlockObject.data.
  destruct (BlockObject.getattr o "index"); [|discriminate].
  destruct (BlockObject.getattr o "previous_hash"); [|discriminate].
  destruct (BlockObject.getattr o "timestamp"); [|discriminate].
  destruct (BlockObject.getattr o "transactions"); [|discriminate].
  destruct (BlockObject.getattr o "proof"); [|discriminate].
  cbn [rbind]. intros E. apply Ok_inj in E. subst d. reflexivity.
Qed.

Lemma init_rejects_data_of_a_block_witness :
  (exists d, BlockObject.data (BlockObject.of_block Block.genesis) = Ok d) /\
  BlockObject.__init__
    (Some (BlockObject.Dict
             [ ("index", Json.Int 0);
               ("previous_hash", Json.Str (Unicode.lit (Block.str_mul "0" 64)));
               ("timestamp",
                Json.Str (Unicode.lit "2023-11-24 00:00:00.000000"));
               ("transactions", Json.Arr []);
               ("proof", Json.Int 0) ]))
  = Raise InvalidBlock.
Proof.
  split; [eexists; reflexivity|].
  apply (proj2 (init_rejects_data_of_a_block Block.genesis
                  (BlockObject.of_block Block.genesis))).
  reflexivity.
Defined.

Ltac destruct_required d :=
  unfold BlockObject.__init__, BlockObject.require;
  destruct (BlockObject.lookup "index" d) eqn:Ei;
  destruct (BlockObject.lookup "previous_hash" d) eqn:Ep;
  destruct (BlockObject.lookup "timestamp" d) eqn:Et;
  destruct (BlockObject.lookup "transaction" d) eqn:Ex;
  destruct (BlockObject.lookup "proof" d) eqn:Er;
  cbn [rbind].

Lemma init_dict_returns_iff (d : Json.dict) :
  (exists o, BlockObject.__init__ (Some (BlockObject.Dict d)) = Ok o) <->
  forall k, In k BlockObject.required_keys -> BlockObject.lookup k d <> None.
Proof.
  split.
  - intros [o E] k Hk. unfold BlockObject.required_keys in Hk.
    revert E. destruct_required d; intros E; try discriminate E.
    destruct Hk as [<-|[<-|[<-|[<-|[<-|[]]]]]]; congruence.
  - intros H.
    assert (H1 := H "index" ltac:(cbn; tauto)).
    assert (H2 := H "previous_hash" ltac:(cbn; tauto)).
    assert (H3 := H "timestamp" ltac:(cbn; tauto)).
    assert (H4 := H "transaction" ltac:(cbn; tauto)).
    assert (H5 := H "proof" ltac:(cbn; tauto)).
    destruct_required d; try contradiction. now eexists.
Qed.

Lemma init_dict_raises (d : Json.dict) (e : exn) :
  BlockObject.__init__ (Some (BlockObject.Dict d)) = Raise e ->
  e = InvalidBlock.
Proof.
  destruct_required d; intros E; first [discriminate E | now injection E].
Qed.

Lemma init_dict_object (d : Json.dict) (o : BlockObject.t) :
  BlockObject.__init__ (Some (BlockObject.Dict d)) = Ok o ->
  (forall k, In k BlockObject.required_keys ->
             BlockObject.getattr o k = BlockObject.require k d) /\
  BlockObject.getattr o "transactions" = Raise AttributeError /\
  BlockObject.data o = Raise AttributeError /\
  BlockObject.json_dumps o = Raise AttributeError /\
  BlockObject.hash o = Raise AttributeError.
Proof.
  destruct_required d; intros E; try discriminate E.
  apply Ok_inj in E. subst o. split; [|repeat split].
  intros k Hk. unfold BlockObject.required_keys in Hk.
  unfold BlockObject.require.
  destruct Hk as [<-|[<-|[<-|[<-|[<-|[]]]]]];
    first [ rewrite Ei | rewrite Ep | rewrite Et | rewrite Ex | rewrite Er ];
    reflexivity.
Qed.

(** X15. [Block(data)] with a dictionary returns exactly when the five
    keys [index], [previous_hash], [timestamp], [transaction] and [proof]
    are present, and raises [InvalidBlock] otherwise, as it does for an
    argument that is no dictionary.  The block it returns holds the values
    of the dictionary, has no attribute [transactions], and so cannot be
    encoded or hashed: [data], [json_dumps] and [hash] raise
    [AttributeError]. *)
Theorem init_from_dictionary (d : Json.dict) (v : Json.value) :
  BlockObject.__init__ (Some (BlockObject.NotADict v)) = Raise InvalidBlock /\
  ((exists o, BlockObject.__init__ (Some (BlockObject.Dict d)) = Ok o) <->
   forall k, In k BlockObject.required_keys ->
             BlockObject.lookup k d <> None) /\
  (forall e, BlockObject.__init__ (Some (BlockObject.Dict d)) = Raise e ->
             e = InvalidBlock) /\
  (forall o, BlockObject.__init__ (Some (BlockObject.Dict d)) = Ok o ->
     (forall k, In k BlockObject.required_keys ->
                BlockObject.getattr o k = BlockObject.require k d) /\
     BlockObject.getattr o "transactions" = Raise AttributeError /\
     BlockObject.data o = Raise AttributeError /\
     BlockObject.json_dumps o = Raise AttributeError /\
     BlockObject.hash o = Raise AttributeError).
Proof.
  split; [reflexivity|].
  split; [apply init_dict_returns_iff|].
  split; [intros e; apply init_dict_raises | intros o; apply init_dict_object].
Qed.

Lemma init_from_dictionary_witness :
  let d := [ ("index", Json.Int 1);
             ("previous_hash", Json.Str (Unicode.lit "aa"));
             ("timestamp", Json.Str Run.clock);
             ("transaction", Json.Arr []);
             ("proof", Json.Int 0) ] in
  exists o, BlockObject.__init__ (Some (BlockObject.Dict d)) = Ok o /\
            BlockObject.hash o = Raise AttributeError.
Proof.
  cbv zeta. eexists. split; [reflexivity|].
  apply (proj2 (proj2 (proj2 (init_from_dictionary
           [ ("index", Json.Int 1);
             ("previous_hash", Json.Str (Unicode.lit "aa"));
             ("timestamp", Json.Str Run.clock);
             ("transaction", Json.Arr []);
             ("proof", Json.Int 0) ] Json.Null)))).
  reflexivity.
Defined.

(** ** The same on concrete transactions *)

Lemma sign_tx_a :
  Transaction.sign (S := ToyScheme.toy) Run.key_one Run.tx_a
  = (Ok tt, Run.signed_tx).
Proof.
  unfold Run.signed_tx. rewrite sign_eq, transaction_json_dumps. reflexivity.
Qed.

Lemma sign_stores_what_verify_decodes_witness :
  Transaction.sign (S := ToyScheme.toy) Run.key_one Run.tx_a
    = (Ok tt, Run.signed_tx) /\
  State.stored_key (S := ToyScheme.toy) Run.signed_tx
    = Some (verifying_key (SignatureScheme := ToyScheme.toy) Run.key_one).
Proof.
  split; [exact sign_tx_a|].
  exact (proj1 (@sign_stores_what_verify_decodes ToyScheme.toy toy_correct
                  Run.key_one Run.tx_a Run.signed_tx sign_tx_a)).
Defined.

Lemma sign_twice_with_one_key_verifies_witness :
  Transaction.sign (S := ToyScheme.toy) Run.key_one Run.tx_a
    = (Ok tt, Run.signed_tx) /\
  exists x2 : Transaction.t,
    Transaction.sign (S := ToyScheme.toy) Run.key_one Run.signed_tx
      = (Ok tt, x2) /\
    Transaction.verify (S := ToyScheme.toy) x2 = (Ok true, x2).
Proof.
  split; [exact sign_tx_a|].
  destruct (@sign_twice_with_one_key_verifies ToyScheme.toy toy_correct
              Run.key_one Run.tx_a Run.signed_tx sign_tx_a)
    as (x2 & Hs & Hv & _).
  exists x2. now split.
Defined.

Lemma verify_reads_five_attributes_witness :
  Transaction.timestamp Run.tx_a <> Transaction.timestamp Run.tx_later /\
  fst (Transaction.verify (S := ToyScheme.toy) Run.tx_a)
  = fst (Transaction.verify (S := ToyScheme.toy) Run.tx_later).
Proof.
  split.
  { intros E. vm_compute in E. discriminate E. }
  apply (verify_reads_five_attributes (S := ToyScheme.toy));
    reflexivity.
Defined.

Lemma sign_touches_three_attributes_witness :
  fst (Transaction.sign (S := ToyScheme.toy) Run.key_one Run.new_tx)
    = Raise AttributeError /\
  snd (Transaction.sign (S := ToyScheme.toy) Run.key_one Run.new_tx)
    = Run.new_tx.
Proof.
  assert (H : fst (Transaction.sign (S := ToyScheme.toy)
                     Run.key_one Run.new_tx) = Raise AttributeError)
    by (rewrite sign_eq; reflexivity).
  split; [exact H|].
  exact (proj2 (proj1 (proj2 (sign_touches_three_attributes
                                (S := ToyScheme.toy) Run.key_one Run.new_tx))
                  AttributeError H)).
Defined.

Lemma hash_outcomes_witness :
  let x := Transaction.mk (Unicode.lit "C1") (Unicode.lit "loaded") Run.clock
             None None [] (PyStr (Unicode.lit "aa")) (PyStr (Unicode.lit "bb"))
             (PyStr (Unicode.lit "cc")) (PyStr [55357%N]) PyNone in
  Unicode.no_surrogate
    (str (Transaction.signature x) ++ str (Transaction.vk x) ++
     str (Transaction.message x) ++ str (Transaction.date x) ++
     str (Transaction.author x))%list = false /\
  fst (Transaction.hash x) = Raise UnicodeEncodeError.
Proof.
  cbv zeta. split; [vm_compute; reflexivity|].
  apply (proj1 (proj2 (proj2 (hash_outcomes
    (Transaction.mk (Unicode.lit "C1") (Unicode.lit "loaded") Run.clock
       None None [] (PyStr (Unicode.lit "aa")) (PyStr (Unicode.lit "bb"))
       (PyStr (Unicode.lit "cc")) (PyStr [55357%N]) PyNone))))).
  repeat split; first [ now eexists | discriminate | vm_compute; reflexivity ].
Defined.

Lemma str_needs_five_attributes_witness :
  let x := Transaction.mk (Unicode.lit "C1") (Unicode.lit "loaded") Run.clock
             None None [] (PyStr (Unicode.lit "aa")) (PyStr (Unicode.lit "bb"))
             (PyStr (Unicode.lit "cc")) (PyStr (Unicode.lit "hello")) PyNone in
  Transaction.date x <> Unset /\ exists s, Ordering.__str__ x = Ok s.
Proof.
  cbv zeta. split; [discriminate|].
  apply (proj1 (str_needs_five_attributes (S := ToyScheme.toy)
                  (Transaction.mk (Unicode.lit "C1") (Unicode.lit "loaded")
                     Run.clock None None []
                     (PyStr (Unicode.lit "aa")) (PyStr (Unicode.lit "bb"))
                     (PyStr (Unicode.lit "cc")) (PyStr (Unicode.lit "hello"))
                     PyNone)
                  Run.clock (Unicode.lit "C1") (Unicode.lit "loaded") []
                  None None None [])).
  repeat split; discriminate.
Defined.

